(** * Supabase project generator: the project lifecycle manager

    A shallow embedding of [src/core/main.py] (class
    [SupabaseProjectGenerator]) and of the status endpoint of
    [src/web/web_interface.py], with the properties of the lifecycle
    manager stated over it.

    Conventions of the embedding:
    - Python [str] is [string]; Python [int] is [Z]; a [dict] whose
      iteration order matters is an association list with unique keys.
    - Every method is a computation in the monad [M]: it takes the state of
      the world (file system, bound TCP ports, subprocess trace, log buffer,
      console) and returns a result, which is a value or a raised exception,
      together with the new state.  State changes made before an exception is
      raised are kept, as in Python.
    - What the host decides (which executables exist, what a subprocess
      returns, the random bytes, the clock, the local address) and the two
      third-party libraries the code calls (PyJWT and [json]) are fields of
      an environment record [Env]. *)

From stdpp Require Import gmap strings list fin_maps pretty.
From Stdlib Require Import Ascii.

Local Open Scope Z_scope.

(** * Python strings *)

Module PyStr.

(** The double quote and the newline, as one-character strings. *)
Definition dq : string := String (ascii_of_nat 34) "".
Definition nl : string := String (ascii_of_nat 10) "".

Definition is_upper (c : ascii) : bool :=
  let n := nat_of_ascii c in (65 <=? n)%nat && (n <=? 90)%nat.
Definition is_lower (c : ascii) : bool :=
  let n := nat_of_ascii c in (97 <=? n)%nat && (n <=? 122)%nat.
Definition is_digit (c : ascii) : bool :=
  let n := nat_of_ascii c in (48 <=? n)%nat && (n <=? 57)%nat.
Definition is_alpha (c : ascii) : bool := is_upper c || is_lower c.

Definition lower_char (c : ascii) : ascii :=
  if is_upper c then ascii_of_nat (nat_of_ascii c + 32) else c.
Definition upper_char (c : ascii) : ascii :=
  if is_lower c then ascii_of_nat (nat_of_ascii c - 32) else c.

(** [s.lower()] *)
Fixpoint lower (s : string) : string :=
  match s with
  | EmptyString => EmptyString
  | String c s' => String (lower_char c) (lower s')
  end.

(** [s.replace(c, '')] for a one-character [c] *)
Fixpoint remove (c : ascii) (s : string) : string :=
  match s with
  | EmptyString => EmptyString
  | String c' s' => if Ascii.eqb c' c then remove c s' else String c' (remove c s')
  end.

(** [s[:n]] *)
Fixpoint take (n : nat) (s : string) : string :=
  match n, s with
  | S n', String c s' => String c (take n' s')
  | _, _ => EmptyString
  end.

(** [sub in s] *)
Fixpoint contains (sub s : string) : bool :=
  String.prefix sub s ||
  match s with
  | EmptyString => false
  | String _ s' => contains sub s'
  end.

(** [s.replace(old, new)] for a non-empty [old]: occurrences are replaced
    from left to right without overlap.  [skip] counts the characters of
    the occurrence just replaced that are still to be dropped. *)
Fixpoint replace_go (old new : string) (skip : nat) (s : string) : string :=
  match s with
  | EmptyString => EmptyString
  | String c s' =>
      match skip with
      | S k => replace_go old new k s'
      | O =>
          if String.prefix old s
          then new +:+ replace_go old new (String.length old - 1) s'
          else String c (replace_go old new 0 s')
      end
  end.
Definition replace (old new s : string) : string := replace_go old new 0 s.

(** [s.title()] on ASCII text *)
Fixpoint title_go (in_word : bool) (s : string) : string :=
  match s with
  | EmptyString => EmptyString
  | String c s' =>
      if is_alpha c
      then String (if in_word then lower_char c else upper_char c) (title_go true s')
      else String c (title_go false s')
  end.
Definition title (s : string) : string := title_go false s.

(** [sep.join(l)] *)
Fixpoint join (sep : string) (l : list string) : string :=
  match l with
  | [] => ""
  | [s] => s
  | s :: l' => s +:+ sep +:+ join sep l'
  end.

(** [filter(None, l)]: the non-empty strings of [l] *)
Definition nonempty (l : list string) : list string :=
  filter (λ s, s ≠ "") l.

(** The text made of the given lines, each ended by a newline. *)
Fixpoint unlines (l : list string) : string :=
  match l with
  | [] => ""
  | s :: l' => s +:+ nl +:+ unlines l'
  end.

(** [s.endswith(suffix)] *)
Definition endswith (s suffix : string) : bool :=
  String.prefix (String.rev suffix) (String.rev s).

(** Number of characters of [s] satisfying [p]. *)
Fixpoint count (p : ascii → bool) (s : string) : nat :=
  match s with
  | EmptyString => O
  | String c s' => ((if p c then 1 else 0) + count p s')%nat
  end.

(** [s.rstrip(c)] for a one-character [c] *)
Fixpoint rstrip (c : ascii) (s : string) : string :=
  match s with
  | EmptyString => EmptyString
  | String c' s' =>
      match rstrip c s' with
      | EmptyString => if Ascii.eqb c' c then EmptyString else String c' EmptyString
      | r => String c' r
      end
  end.

(** Python's ASCII white space, as [str.strip] sees it. *)
Definition is_space (c : ascii) : bool :=
  let n := nat_of_ascii c in
  ((9 <=? n)%nat && (n <=? 13)%nat) || ((28 <=? n)%nat && (n <=? 32)%nat).

(** [s * n] *)
Fixpoint repeat (s : string) (n : nat) : string :=
  match n with
  | O => EmptyString
  | S n' => s +:+ repeat s n'
  end.

(** Every character of [s] satisfies [p]. *)
Fixpoint all (p : ascii → bool) (s : string) : bool :=
  match s with
  | EmptyString => true
  | String c s' => p c && all p s'
  end.

End PyStr.

(** [os.path.join(a, b)] for two components (POSIX). *)
Definition path_join (a b : string) : string :=
  if String.prefix "/" b then b
  else if bool_decide (a = "") || PyStr.endswith a "/" then a +:+ b
  else a +:+ "/" +:+ b.

(** * Exceptions, results and the monad of methods *)

Inductive exn_class :=
  | Exception | ValueError | KeyError | OverflowError | JSONDecodeError
  | OSError | FileNotFoundError | FileExistsError
  | IsADirectoryError | NotADirectoryError
  | NonTermination.

(** An exception value: its class and [str(e)].  [NonTermination] is not a
    Python exception: it marks a loop of the model that ran out of fuel, and
    is shown never to occur. *)
Record exn := Exn { exn_class_of : exn_class; exn_str : string }.

(** [isinstance(e, OSError)] *)
Definition is_OSError (e : exn) : bool :=
  match exn_class_of e with
  | OSError | FileNotFoundError | FileExistsError
  | IsADirectoryError | NotADirectoryError => true
  | _ => false
  end.

Inductive result (A : Type) :=
  | Ok (a : A)
  | Raise (e : exn).
Arguments Ok {A} a.
Arguments Raise {A} e.

(** * The data of a project *)

(** The claim set of a signed token. *)
Record Payload := mkPayload {
  iss : string;
  ref : string;
  role : string;
  iat : Z;
  exp : Z;
}.

(** A Python [dict] from service names to port numbers, in insertion order. *)
Abbreviation dict := (list (string * Z)).

(** [d[k] = v]: an existing key keeps its position. *)
Fixpoint dict_set (d : dict) (k : string) (v : Z) : dict :=
  match d with
  | [] => [(k, v)]
  | (k', v') :: d' =>
      if decide (k' = k) then (k, v) :: d' else (k', v') :: dict_set d' k v
  end.

(** [d.get(k)] *)
Fixpoint dict_get (d : dict) (k : string) : option Z :=
  match d with
  | [] => None
  | (k', v') :: d' => if decide (k' = k) then Some v' else dict_get d' k
  end.

(** [db_config] of the persisted configuration. *)
Record DbConfig := mkDbConfig {
  db_host : string;
  db_port : string;
  db_user : string;
  db_password : string;
  db_database : string;
}.

(** The persisted configuration ([supabase_config.json]). *)
Record Config := mkConfig {
  project_name : string;
  project_ref : string;
  machine_size : string;
  specs : string;
  machine_ip : string;
  db_config : DbConfig;
  anon_key : string;
  service_key : string;
  jwt_secret : string;
  created_at : string;
  ports : dict;
}.

(** * The world and the environment *)

(** A path of the file system holds a directory or a file with its text.
    The name space is flat: a path is looked up as a whole. *)
Inductive node :=
  | Dir
  | File (text : string).

(** One [subprocess.run] call: the command line and the working directory. *)
Abbreviation invocation := (list string * string)%type.

(** The state that the methods read and change.  What the container runtime
    itself does to the disk and to the ports is not part of it: a subprocess
    is known by its outcome only. *)
Record World := mkWorld {
  fs : gmap string node;       (* the file system *)
  ports_in_use : gset Z;       (* TCP ports on which a bind fails *)
  procs : list invocation;     (* subprocess invocations so far, oldest first *)
  ticks : nat;                 (* clock readings so far *)
  draws : nat;                 (* random tokens drawn so far *)
  logs : list string;          (* ProjectLogger.logs *)
  console : list string;       (* lines printed *)
}.

Definition set_fs (f : gmap string node) (w : World) : World :=
  mkWorld f (ports_in_use w) (procs w) (ticks w) (draws w) (logs w) (console w).
Definition set_ports_in_use (l : gset Z) (w : World) : World :=
  mkWorld (fs w) l (procs w) (ticks w) (draws w) (logs w) (console w).
Definition set_procs (p : list invocation) (w : World) : World :=
  mkWorld (fs w) (ports_in_use w) p (ticks w) (draws w) (logs w) (console w).
Definition set_ticks (n : nat) (w : World) : World :=
  mkWorld (fs w) (ports_in_use w) (procs w) n (draws w) (logs w) (console w).
Definition set_draws (n : nat) (w : World) : World :=
  mkWorld (fs w) (ports_in_use w) (procs w) (ticks w) n (logs w) (console w).
Definition set_logs (l : list string) (w : World) : World :=
  mkWorld (fs w) (ports_in_use w) (procs w) (ticks w) (draws w) l (console w).
Definition set_console (c : list string) (w : World) : World :=
  mkWorld (fs w) (ports_in_use w) (procs w) (ticks w) (draws w) (logs w) c.

(** What [subprocess.run(cmd, cwd=..., capture_output=True, text=True)] does:
    the process runs to completion, or the call itself raises. *)
Inductive proc_outcome :=
  | Completed (returncode : Z) (stdout stderr : string)
  | NotStarted (e : exn).

(** One reading of [datetime.now()]. *)
Record Instant := mkInstant {
  unix : Z;             (* int(now.timestamp()) *)
  hms : string;         (* now.strftime of hours, minutes, seconds *)
  isoformat : string;   (* now.isoformat() *)
}.

(** What the host and the third-party libraries decide. *)
Record Env := mkEnv {
  (* SupabaseProjectGenerator.projects_dir *)
  projects_dir : string;
  (* shutil.which(cmd) is not None *)
  which : string → bool;
  (* the outcome of the n-th subprocess invocation *)
  run_process : nat → list string → string → proc_outcome;
  (* byte i of the n-th random token *)
  urandom : nat → nat → Byte.byte;
  (* the n-th reading of the clock *)
  clock : nat → Instant;
  (* the local address found by get_machine_ip, if the lookup succeeds *)
  local_ip : option string;
  (* jwt.encode(payload, key, algorithm=HS256) *)
  jwt_encode : Payload → string → string;
  (* json.dumps(config, indent=2) *)
  json_dumps : Config → string;
  (* json.loads(text): the configuration read, or the exception raised *)
  json_loads : string → result Config;
}.

(** * The monad *)

Definition M (A : Type) : Type := World → result A * World.

Definition ret {A} (a : A) : M A := λ w, (Ok a, w).

Definition raise {A} (e : exn) : M A := λ w, (Raise e, w).

Definition bind {A B} (m : M A) (k : A → M B) : M B :=
  λ w, match m w with
       | (Ok a, w') => k a w'
       | (Raise e, w') => (Raise e, w')
       end.

(** [try: m  except Exception as e: h e] *)
Definition try_except {A} (m : M A) (h : exn → M A) : M A :=
  λ w, match m w with
       | (Ok a, w') => (Ok a, w')
       | (Raise e, w') => h e w'
       end.

(** [try: m  except OSError: h] *)
Definition try_except_OSError {A} (m : M A) (h : M A) : M A :=
  λ w, match m w with
       | (Ok a, w') => (Ok a, w')
       | (Raise e, w') => if is_OSError e then h w' else (Raise e, w')
       end.

Declare Scope py_scope.
Delimit Scope py_scope with py.
Notation "'let*' x ':=' m 'in' k" := (bind m (λ x, k))
  (at level 10, x pattern, m at level 100, k at level 200) : py_scope.
Local Open Scope py_scope.

(** * URL-safe Base64 (RFC 4648, section 5), as [base64.urlsafe_b64encode] *)

Definition b64_alphabet : string :=
  "ABCDEFGHIJKLMNOPQRSTUVWXYZabcdefghijklmnopqrstuvwxyz0123456789-_".

Definition b64_char (i : N) : ascii :=
  nth (N.to_nat i) (String.list_ascii_of_string b64_alphabet) "A"%char.

Definition b64_pad : ascii := "="%char.

Fixpoint urlsafe_b64encode (bs : list Byte.byte) : string :=
  match bs with
  | [] => EmptyString
  | [a] =>
      let a := Byte.to_N a in
      String (b64_char (N.shiftr a 2))
        (String (b64_char (N.shiftl (N.land a 3) 4))
           (String b64_pad (String b64_pad EmptyString)))
  | [a; b] =>
      let a := Byte.to_N a in
      let b := Byte.to_N b in
      String (b64_char (N.shiftr a 2))
        (String (b64_char (N.lor (N.shiftl (N.land a 3) 4) (N.shiftr b 4)))
           (String (b64_char (N.shiftl (N.land b 15) 2))
              (String b64_pad EmptyString)))
  | a :: b :: c :: rest =>
      let a := Byte.to_N a in
      let b := Byte.to_N b in
      let c := Byte.to_N c in
      String (b64_char (N.shiftr a 2))
        (String (b64_char (N.lor (N.shiftl (N.land a 3) 4) (N.shiftr b 4)))
           (String (b64_char (N.lor (N.shiftl (N.land b 15) 2) (N.shiftr c 6)))
              (String (b64_char (N.land c 63))
                 (urlsafe_b64encode rest))))
  end.

(** The text [secrets.token_urlsafe] makes of its random bytes. *)
Definition urlsafe_text (tok : list Byte.byte) : string :=
  PyStr.rstrip b64_pad (urlsafe_b64encode tok).

(** [tok.lower().replace('_', '').replace('-', '')[:20]]: the project
    reference made of a URL-safe token. *)
Definition project_ref_of_token (tok : string) : string :=
  PyStr.take 20
    (PyStr.remove "-"%char (PyStr.remove "_"%char (PyStr.lower tok))).

(** [365 * 24 * 60 * 60 * 10]: the lifetime of a token in seconds. *)
Definition ten_years : Z := 365 * 24 * 60 * 60 * 10.

(** * Operating-system and library primitives *)

(** [os.path.exists(p)] *)
Definition os_path_exists (p : string) : M bool :=
  λ w, (Ok (bool_decide (is_Some (fs w !! p))), w).

(** [os.makedirs(p, exist_ok=True)] *)
Definition os_makedirs (p : string) : M unit :=
  λ w, match fs w !! p with
       | Some (File _) =>
           (Raise (Exn FileExistsError ("[Errno 17] File exists: '" +:+ p +:+ "'")), w)
       | _ => (Ok tt, set_fs (<[p := Dir]> (fs w)) w)
       end.

(** [with open(p, 'r') as f: f.read()] *)
Definition read_text (p : string) : M string :=
  λ w, match fs w !! p with
       | Some (File text) => (Ok text, w)
       | Some Dir =>
           (Raise (Exn IsADirectoryError ("[Errno 21] Is a directory: '" +:+ p +:+ "'")), w)
       | None =>
           (Raise (Exn FileNotFoundError
                     ("[Errno 2] No such file or directory: '" +:+ p +:+ "'")), w)
       end.

(** [with open(p, 'w') as f: f.write(text)] *)
Definition write_text (p text : string) : M unit :=
  λ w, match fs w !! p with
       | Some Dir =>
           (Raise (Exn IsADirectoryError ("[Errno 21] Is a directory: '" +:+ p +:+ "'")), w)
       | _ => (Ok tt, set_fs (<[p := File text]> (fs w)) w)
       end.

(** [p] is the directory [d] or lies below it. *)
Definition inside (d p : string) : bool :=
  bool_decide (p = d)
  || String.prefix (if PyStr.endswith d "/" then d else d +:+ "/") p.

(** [shutil.rmtree(d)] *)
Definition shutil_rmtree (d : string) : M unit :=
  λ w, match fs w !! d with
       | Some Dir =>
           (Ok tt, set_fs (filter (λ kv, inside d kv.1 = false) (fs w)) w)
       | Some (File _) =>
           (Raise (Exn NotADirectoryError ("[Errno 20] Not a directory: '" +:+ d +:+ "'")), w)
       | None =>
           (Raise (Exn FileNotFoundError
                     ("[Errno 2] No such file or directory: '" +:+ d +:+ "'")), w)
       end.

(** [s.bind(('', port))] on a fresh TCP socket [s] *)
Definition sock_bind (port : Z) : M unit :=
  λ w, if bool_decide (0 ≤ port ≤ 65535) then
         if bool_decide (port ∈ ports_in_use w)
         then (Raise (Exn OSError "[Errno 98] Address already in use"), w)
         else (Ok tt, set_ports_in_use ({[port]} ∪ ports_in_use w) w)
       else (Raise (Exn OverflowError "bind(): port must be 0-65535."), w).

(** Closing the socket bound to [port] *)
Definition sock_close (port : Z) : M unit :=
  λ w, (Ok tt, set_ports_in_use (ports_in_use w ∖ {[port]}) w).

(** [print(line)] *)
Definition print (line : string) : M unit :=
  λ w, (Ok tt, set_console (console w ++ [line]) w).

Section Model.

Context (env : Env).

(** [datetime.now()] *)
Definition datetime_now : M Instant :=
  λ w, (Ok (clock env (ticks w)), set_ticks (S (ticks w)) w).

(** [secrets.token_bytes(nbytes)] *)
Definition token_bytes (nbytes : nat) : M (list Byte.byte) :=
  λ w, (Ok (map (urandom env (draws w)) (seq 0 nbytes)),
        set_draws (S (draws w)) w).

(** [secrets.token_urlsafe(nbytes)] *)
Definition token_urlsafe (nbytes : nat) : M string :=
  let* tok := token_bytes nbytes in
  ret (urlsafe_text tok).

(** [shutil.which(cmd)] finds an executable *)
Definition shutil_which (cmd : string) : M bool :=
  ret (which env cmd).

(** [subprocess.run(cmd, cwd=cwd, capture_output=True, text=True)]: the
    completed process as (returncode, stdout, stderr) *)
Definition subprocess_run (cmd : list string) (cwd : string) : M (Z * string * string) :=
  λ w, let w' := set_procs (procs w ++ [(cmd, cwd)]) w in
       match run_process env (length (procs w)) cmd cwd with
       | Completed rc out err => (Ok (rc, out, err), w')
       | NotStarted e => (Raise e, w')
       end.

(** ** ProjectLogger *)

Definition log (message level : string) : M unit :=
  let* now := datetime_now in
  let timestamp := hms now in
  let log_entry := "[" +:+ timestamp +:+ "] " +:+ level +:+ ": " +:+ message in
  let* _ := (λ w, (Ok tt, set_logs (logs w ++ [log_entry]) w)) in
  print log_entry.

Definition get_logs : M (list string) :=
  λ w, (Ok (logs w), w).

Definition clear_logs : M unit :=
  λ w, (Ok tt, set_logs [] w).

(** ** SupabaseProjectGenerator *)

Definition get_machine_ip : M string :=
  ret (default "127.0.0.1" (local_ip env)).

Definition check_port_availability (port : Z) : M bool :=
  try_except_OSError
    (let* _ := sock_bind port in
     (* leaving the with block closes the socket *)
     let* _ := sock_close port in
     ret true)
    (ret false).

(** The loop [while not self.check_port_availability(port)] of
    [find_available_ports]; [fuel] bounds the iterations still to come
    after this one. *)
Fixpoint probe (fuel : nat) (service : string) (base_port port : Z) : M Z :=
  let* available := check_port_availability port in
  if available then ret port
  else
    let port := port + 1 in
    if bool_decide (port > base_port + 100)
    then raise (Exn Exception
                  ("Could not find available port for " +:+ service +:+ " service"))
    else match fuel with
         | S fuel' => probe fuel' service base_port port
         | O => raise (Exn NonTermination "probe")
         end.

(** The loop [for service, base_port in base_ports.items()] *)
Fixpoint allocate (items : dict) (available_ports : dict) : M dict :=
  match items with
  | [] => ret available_ports
  | (service, base_port) :: items' =>
      let* port := probe 100 service base_port base_port in
      allocate items' (dict_set available_ports service port)
  end.

Definition find_available_ports (base_ports : dict) : M dict :=
  allocate base_ports [].

(** A connection to [port] succeeds when the port is in use. *)
Definition get_service_status (port : Z) : M bool :=
  λ w, (Ok (bool_decide (0 ≤ port ≤ 65535) && bool_decide (port ∈ ports_in_use w)), w).

Definition generate_jwt_keys (project_ref : option string) : M (string * string * string) :=
  let* secret_key := token_urlsafe 48 in
  let* project_ref :=
    match project_ref with
    | Some r =>
        if bool_decide (r = "")
        then let* tok := token_urlsafe 16 in ret (project_ref_of_token tok)
        else ret r
    | None => let* tok := token_urlsafe 16 in ret (project_ref_of_token tok)
    end in
  let* now := datetime_now in
  let current_time := unix now in
  let expiry_time := current_time + 365 * 24 * 60 * 60 * 10 in
  let anon_payload :=
    mkPayload "supabase" project_ref "anon" current_time expiry_time in
  let service_payload :=
    mkPayload "supabase" project_ref "service_role" current_time expiry_time in
  let anon_key := jwt_encode env anon_payload secret_key in
  let service_key := jwt_encode env service_payload secret_key in
  ret (anon_key, service_key, secret_key).

(** The loop [for cmd in commands] of [_run_compose]: a step returns from
    the method ([inl]) or goes on with new values of [last_rc], [last_out]
    and [last_err] ([inr]). *)
Fixpoint run_commands (cwd : string) (commands : list (list string))
    (last : Z * string * string) : M (Z * string * string) :=
  match commands with
  | [] => ret last
  | cmd :: commands' =>
      let* step :=
        try_except
          (let* res := subprocess_run cmd cwd in
           let '(returncode, stdout, stderr) := res in
           if bool_decide (returncode = 0)
           then ret (inl (0, stdout, stderr))
           else ret (inr (returncode, stdout, stderr)))
          (λ e, let '(_, last_out, _) := last in
                ret (inr (1, last_out, exn_str e))) in
      match step with
      | inl r => ret r
      | inr last' => run_commands cwd commands' last'
      end
  end.

Definition _run_compose (cwd : string) (args : list string) : M (Z * string * string) :=
  let* docker := shutil_which "docker" in
  let commands := if docker then [["docker"; "compose"] ++ args] else [] in
  let* docker_compose := shutil_which "docker-compose" in
  let commands :=
    if docker_compose then commands ++ [["docker-compose"] ++ args] else commands in
  match commands with
  | [] => ret (1, "", "docker/docker-compose not found")
  | _ => run_commands cwd commands (1, "", "")
  end.

(** ** The generated topology: [docker-compose.yml] and [kong.yml]

    The lines of the two f-strings of [create_docker_compose] and
    [create_kong_config].  [port k] stands for [ports[k]]. *)

#[local] Abbreviation dq := PyStr.dq.

Definition compose_header : list string :=
  [EmptyString;
   "version: '3.8'";
   EmptyString;
   "services:"].

Definition compose_studio (config : Config) (port : string → Z) : list string :=
  ["  studio:";
   "    image: supabase/studio:latest";
   "    ports:";
   "      - " +:+ pretty (port "studio") +:+ ":3000";
   "    environment:";
   "      SUPABASE_URL: http://kong:" +:+ pretty (port "kong");
   "      SUPABASE_REST_URL: http://localhost:" +:+ pretty (port "kong")
     +:+ "/rest/v1/";
   "      SUPABASE_ANON_KEY: " +:+ anon_key config;
   "      SUPABASE_SERVICE_KEY: " +:+ service_key config;
   "      STUDIO_PG_META_URL: http://meta:" +:+ pretty (port "meta");
   "    "].

Definition compose_kong (port : string → Z) : list string :=
  ["  kong:";
   "    image: kong:latest";
   "    ports:";
   "      - " +:+ pretty (port "kong") +:+ ":8000";
   "    environment:";
   "      KONG_DATABASE: off";
   "      KONG_DECLARATIVE_CONFIG: /opt/kong/kong.yml";
   "      KONG_DNS_ORDER: LAST,A,CNAME";
   "      KONG_PLUGINS: request-transformer,cors,key-auth,acl,opentelemetry";
   "    volumes:";
   "      - ./kong.yml:/opt/kong/kong.yml";
   "    healthcheck:";
   "      test: [" +:+ dq +:+ "CMD" +:+ dq +:+ ", " +:+ dq +:+ "kong" +:+ dq +:+ ", "
     +:+ dq +:+ "health" +:+ dq +:+ "]";
   "      interval: 10s";
   "      timeout: 5s";
   "      retries: 5";
   "    "].

Definition compose_auth (project_name : string) (config : Config) (port : string → Z) : list string :=
  ["  auth:";
   "    image: supabase/gotrue:v2";
   "    ports:";
   "      - " +:+ pretty (port "auth") +:+ ":9999";
   "    environment:";
   "      GOTRUE_API_HOST: 0.0.0.0";
   "      GOTRUE_API_PORT: 9999";
   "      API_EXTERNAL_URL: http://localhost:" +:+ pretty (port "kong");
   "      ";
   "      GOTRUE_DB_DRIVER: postgres";
   "      GOTRUE_DB_DATABASE_URL: postgresql://" +:+ db_user (db_config config) +:+ ":"
     +:+ db_password (db_config config) +:+ "@" +:+ db_host (db_config config)
     +:+ ":" +:+ db_port (db_config config) +:+ "/" +:+ project_name;
   "      ";
   "      GOTRUE_SITE_URL: http://localhost:" +:+ pretty (port "studio");
   "      GOTRUE_URI_ALLOW_LIST: '*'";
   "      GOTRUE_DISABLE_SIGNUP: false";
   "      ";
   "      GOTRUE_JWT_ADMIN_ROLES: service_role";
   "      GOTRUE_JWT_AUD: authenticated";
   "      GOTRUE_JWT_DEFAULT_GROUP_NAME: authenticated";
   "      GOTRUE_JWT_EXP: 3600";
   "      GOTRUE_JWT_SECRET: " +:+ jwt_secret config;
   "      ";
   "      GOTRUE_EXTERNAL_EMAIL_ENABLED: true";
   "      GOTRUE_MAILER_AUTOCONFIRM: true";
   "      GOTRUE_SMTP_HOST: localhost";
   "      GOTRUE_SMTP_PORT: 2500";
   "      GOTRUE_SMTP_USER: " +:+ dq +:+ dq;
   "      GOTRUE_SMTP_PASS: " +:+ dq +:+ dq;
   "      GOTRUE_SMTP_ADMIN_EMAIL: admin@example.com";
   "      GOTRUE_MAILER_URLPATHS_INVITE: /auth/v1/verify";
   "      GOTRUE_MAILER_URLPATHS_CONFIRMATION: /auth/v1/verify";
   "      GOTRUE_MAILER_URLPATHS_RECOVERY: /auth/v1/verify";
   "      GOTRUE_MAILER_URLPATHS_EMAIL_CHANGE: /auth/v1/verify";
   "    healthcheck:";
   "      test: [" +:+ dq +:+ "CMD" +:+ dq +:+ ", " +:+ dq +:+ "wget" +:+ dq +:+ ", "
     +:+ dq +:+ "--quiet" +:+ dq +:+ ", " +:+ dq +:+ "--tries=1" +:+ dq +:+ ", "
     +:+ dq +:+ "--spider" +:+ dq +:+ ", " +:+ dq +:+ "http://localhost:9999/health"
     +:+ dq +:+ "]";
   "      interval: 10s";
   "      timeout: 5s";
   "      retries: 5";
   "    "].

Definition compose_rest (project_name : string) (config : Config) (port : string → Z) : list string :=
  ["  rest:";
   "    image: postgrest/postgrest:latest";
   "    ports:";
   "      - " +:+ pretty (port "rest") +:+ ":3000";
   "    environment:";
   "      PGRST_DB_URI: postgresql://" +:+ db_user (db_config config) +:+ ":"
     +:+ db_password (db_config config) +:+ "@" +:+ db_host (db_config config)
     +:+ ":" +:+ db_port (db_config config) +:+ "/" +:+ project_name;
   "      PGRST_DB_SCHEMA: public";
   "      PGRST_DB_ANON_ROLE: anon";
   "      PGRST_JWT_SECRET: " +:+ jwt_secret config;
   "    healthcheck:";
   "      test: [" +:+ dq +:+ "CMD" +:+ dq +:+ ", " +:+ dq +:+ "wget" +:+ dq +:+ ", "
     +:+ dq +:+ "--quiet" +:+ dq +:+ ", " +:+ dq +:+ "--tries=1" +:+ dq +:+ ", "
     +:+ dq +:+ "--spider" +:+ dq +:+ ", " +:+ dq +:+ "http://localhost:3000/"
     +:+ dq +:+ "]";
   "      interval: 10s";
   "      timeout: 5s";
   "      retries: 5";
   "    "].

Definition compose_realtime (project_name : string) (config : Config) (port : string → Z) : list string :=
  ["  realtime:";
   "    image: supabase/realtime:latest";
   "    ports:";
   "      - " +:+ pretty (port "realtime") +:+ ":4000";
   "    environment:";
   "      PORT: 4000";
   "      DB_HOST: " +:+ db_host (db_config config);
   "      DB_PORT: " +:+ db_port (db_config config);
   "      DB_NAME: " +:+ project_name;
   "      DB_USER: " +:+ db_user (db_config config);
   "      DB_PASSWORD: " +:+ db_password (db_config config);
   "      DB_SSL: 'false'";
   "      JWT_SECRET: " +:+ jwt_secret config;
   "      REPLICATION_MODE: RLS";
   "      REPLICATION_POLL_INTERVAL: 100";
   "      SECURE_CHANNELS: 'true'";
   "      SLOT_NAME: supabase_realtime_rls";
   "      TEMPORARY_SLOT: 'true'";
   "    healthcheck:";
   "      test: [" +:+ dq +:+ "CMD" +:+ dq +:+ ", " +:+ dq +:+ "curl" +:+ dq +:+ ", "
     +:+ dq +:+ "-f" +:+ dq +:+ ", " +:+ dq +:+ "http://localhost:4000/api/health"
     +:+ dq +:+ "]";
   "      interval: 10s";
   "      timeout: 5s";
   "      retries: 5";
   "    "].

Definition compose_storage (project_name : string) (config : Config) (port : string → Z) : list string :=
  ["  storage:";
   "    image: supabase/storage-api:latest";
   "    ports:";
   "      - " +:+ pretty (port "storage") +:+ ":5000";
   "    environment:";
   "      ANON_KEY: " +:+ anon_key config;
   "      SERVICE_KEY: " +:+ service_key config;
   "      POSTGREST_URL: http://rest:3000";
   "      PGRST_JWT_SECRET: " +:+ jwt_secret config;
   "      DATABASE_URL: postgresql://" +:+ db_user (db_config config) +:+ ":"
     +:+ db_password (db_config config) +:+ "@" +:+ db_host (db_config config)
     +:+ ":" +:+ db_port (db_config config) +:+ "/" +:+ project_name;
   "      FILE_SIZE_LIMIT: 52428800";
   "      STORAGE_BACKEND: file";
   "      FILE_STORAGE_BACKEND_PATH: /var/lib/storage";
   "      TENANT_ID: stub";
   "      SKIP_API_HOST_CHECK: true";
   "      REGION: stub";
   "    volumes:";
   "      - ./storage:/var/lib/storage";
   "    healthcheck:";
   "      test: [" +:+ dq +:+ "CMD" +:+ dq +:+ ", " +:+ dq +:+ "wget" +:+ dq +:+ ", "
     +:+ dq +:+ "--quiet" +:+ dq +:+ ", " +:+ dq +:+ "--tries=1" +:+ dq +:+ ", "
     +:+ dq +:+ "--spider" +:+ dq +:+ ", " +:+ dq +:+ "http://localhost:5000/status"
     +:+ dq +:+ "]";
   "      interval: 10s";
   "      timeout: 5s";
   "      retries: 5";
   "    "].

Definition compose_meta (project_name : string) (config : Config) (port : string → Z) : list string :=
  ["  meta:";
   "    image: supabase/postgres-meta:latest";
   "    ports:";
   "      - " +:+ pretty (port "meta") +:+ ":8080";
   "    environment:";
   "      PG_META_PORT: 8080";
   "      PG_META_DB_HOST: " +:+ db_host (db_config config);
   "      PG_META_DB_PORT: " +:+ db_port (db_config config);
   "      PG_META_DB_NAME: " +:+ project_name;
   "      PG_META_DB_USER: " +:+ db_user (db_config config);
   "      PG_META_DB_PASSWORD: " +:+ db_password (db_config config);
   "    healthcheck:";
   "      test: [" +:+ dq +:+ "CMD" +:+ dq +:+ ", " +:+ dq +:+ "wget" +:+ dq +:+ ", "
     +:+ dq +:+ "--quiet" +:+ dq +:+ ", " +:+ dq +:+ "--tries=1" +:+ dq +:+ ", "
     +:+ dq +:+ "--spider" +:+ dq +:+ ", " +:+ dq +:+ "http://localhost:8080/health"
     +:+ dq +:+ "]";
   "      interval: 10s";
   "      timeout: 5s";
   "      retries: 5";
   "    "].

Definition compose_functions (project_name : string) (config : Config) (port : string → Z) : list string :=
  ["  functions:";
   "    image: supabase/edge-runtime:latest";
   "    ports:";
   "      - " +:+ pretty (port "functions") +:+ ":8081";
   "    environment:";
   "      SUPABASE_URL: http://kong:" +:+ pretty (port "kong");
   "      SUPABASE_ANON_KEY: " +:+ anon_key config;
   "      SUPABASE_SERVICE_KEY: " +:+ service_key config;
   "      SUPABASE_DB_URL: postgresql://" +:+ db_user (db_config config) +:+ ":"
     +:+ db_password (db_config config) +:+ "@" +:+ db_host (db_config config)
     +:+ ":" +:+ db_port (db_config config) +:+ "/" +:+ project_name;
   "    volumes:";
   "      - ./functions:/home/deno/functions:Z";
   "    healthcheck:";
   "      test: [" +:+ dq +:+ "CMD" +:+ dq +:+ ", " +:+ dq +:+ "curl" +:+ dq +:+ ", "
     +:+ dq +:+ "-f" +:+ dq +:+ ", " +:+ dq +:+ "http://localhost:8081/status"
     +:+ dq +:+ "]";
   "      interval: 10s";
   "      timeout: 5s";
   "      retries: 5";
   "    "].

Definition compose_analytics (project_name : string) (config : Config) (port : string → Z) : list string :=
  ["  analytics:";
   "    image: supabase/logflare:latest";
   "    ports:";
   "      - " +:+ pretty (port "analytics") +:+ ":4000";
   "    environment:";
   "      LOGFLARE_NODE_HOST: 127.0.0.1";
   "      DB_HOST: " +:+ db_host (db_config config);
   "      DB_PORT: " +:+ db_port (db_config config);
   "      DB_NAME: " +:+ project_name;
   "      DB_USER: " +:+ db_user (db_config config);
   "      DB_PASSWORD: " +:+ db_password (db_config config);
   "      LOGFLARE_API_KEY: " +:+ jwt_secret config;
   "      LOGFLARE_SINGLE_TENANT: true";
   "      LOGFLARE_SUPABASE_MODE: true";
   "    healthcheck:";
   "      test: [" +:+ dq +:+ "CMD" +:+ dq +:+ ", " +:+ dq +:+ "curl" +:+ dq +:+ ", "
     +:+ dq +:+ "-f" +:+ dq +:+ ", " +:+ dq +:+ "http://localhost:4000/health"
     +:+ dq +:+ "]";
   "      interval: 10s";
   "      timeout: 5s";
   "      retries: 5";
   "    "].

Definition compose_vector (port : string → Z) : list string :=
  ["  vector:";
   "    image: timberio/vector:latest";
   "    ports:";
   "      - " +:+ pretty (port "vector") +:+ ":9001";
   "    "].

Definition compose_footer : list string :=
  ["volumes:";
   "  storage:"].

Definition kong_content_lines : list string :=
  [EmptyString;
   "_format_version: " +:+ dq +:+ "1.1" +:+ dq;
   EmptyString;
   "services:";
   "  - name: auth-v1";
   "    url: http://auth:9999/verify";
   "    routes:";
   "      - name: auth-v1-routes";
   "        paths:";
   "          - /auth/v1/*";
   "        strip_path: true";
   "    ";
   "  - name: rest-v1";
   "    url: http://rest:3000/";
   "    routes:";
   "      - name: rest-v1-routes";
   "        paths:";
   "          - /rest/v1/*";
   "        strip_path: true";
   "    ";
   "  - name: realtime-v1";
   "    url: http://realtime:4000/socket/";
   "    routes:";
   "      - name: realtime-v1-routes";
   "        paths:";
   "          - /realtime/v1/*";
   "        strip_path: true";
   "    ";
   "  - name: storage-v1";
   "    url: http://storage:5000/";
   "    routes:";
   "      - name: storage-v1-routes";
   "        paths:";
   "          - /storage/v1/*";
   "        strip_path: true";
   "    ";
   "  - name: functions-v1";
   "    url: http://functions:8081/";
   "    routes:";
   "      - name: functions-v1-routes";
   "        paths:";
   "          - /functions/v1/*";
   "        strip_path: true"].

(** The subscripts [ports[k]] of the f-string of [create_docker_compose],
    in the order in which they are first evaluated. *)
Definition compose_port_keys : list string :=
  ["studio"; "kong"; "meta"; "auth"; "rest"; "realtime"; "storage";
   "functions"; "analytics"; "vector"].

(** The value of the f-string: the first subscript that fails raises
    [KeyError]. *)
Definition docker_compose_content (project_name : string) (config : Config) : result string :=
  let ports := ports config in
  match filter (λ k, dict_get ports k = None) compose_port_keys with
  | k :: _ => Raise (Exn KeyError ("'" +:+ k +:+ "'"))
  | [] =>
      let port := λ k, default 0 (dict_get ports k) in
      Ok (PyStr.unlines
            (compose_header
             ++ compose_studio config port
             ++ compose_kong port
             ++ compose_auth project_name config port
             ++ compose_rest project_name config port
             ++ compose_realtime project_name config port
             ++ compose_storage project_name config port
             ++ compose_meta project_name config port
             ++ compose_functions project_name config port
             ++ compose_analytics project_name config port
             ++ compose_vector port
             ++ compose_footer))
  end.

Definition kong_content : string := PyStr.unlines kong_content_lines.

(** A result as a computation that leaves the world as it is. *)
Definition lift {A} (r : result A) : M A := λ w, (r, w).

(** [d[k]] *)
Definition dict_subscript (d : dict) (k : string) : M Z :=
  match dict_get d k with
  | Some v => ret v
  | None => raise (Exn KeyError ("'" +:+ k +:+ "'"))
  end.

(** [for x in l: body x] *)
Fixpoint for_each {A} (l : list A) (body : A → M unit) : M unit :=
  match l with
  | [] => ret tt
  | x :: l' => let* _ := body x in for_each l' body
  end.

Definition create_kong_config (project_path : string) (config : Config) : M unit :=
  let kong_path := path_join project_path "kong.yml" in
  write_text kong_path kong_content.

Definition create_docker_compose (project_path project_name : string) (config : Config) : M unit :=
  let* docker_compose_content := lift (docker_compose_content project_name config) in
  let docker_compose_path := path_join project_path "docker-compose.yml" in
  let* _ := write_text docker_compose_path docker_compose_content in
  create_kong_config project_path config.

Definition start_project (project_name : string) : M (bool * string * string) :=
  try_except
    (let project_path := path_join (projects_dir env) project_name in
     let* exists_path := os_path_exists project_path in
     if negb exists_path
     then ret (false, "", "Project path not found: " +:+ project_path)
     else
       let compose_file := path_join project_path "docker-compose.yml" in
       let* exists_compose := os_path_exists compose_file in
       if negb exists_compose
       then ret (false, "", "docker-compose.yml not found")
       else
         (* Auto-migrate GoTrue image tag if old 'latest' is present *)
         let* _ :=
           try_except
             (let* compose_text := read_text compose_file in
              if PyStr.contains "supabase/gotrue:latest" compose_text
              then
                let compose_text :=
                  PyStr.replace "supabase/gotrue:latest" "supabase/gotrue:v2" compose_text in
                write_text compose_file compose_text
              else ret tt)
             (λ _, ret tt) in
         (* Pull latest images (non-fatal) *)
         let* _ := _run_compose project_path ["pull"] in
         (* Start services *)
         let* res := _run_compose project_path ["up"; "-d"] in
         let '(rc, out, err) := res in
         ret (bool_decide (rc = 0), out, err))
    (λ e,
       let msg := "Error starting project " +:+ project_name +:+ ": " +:+ exn_str e in
       let* _ := print msg in
       ret (false, "", msg)).

Definition stop_project (project_name : string) : M (bool * string * string) :=
  try_except
    (let project_path := path_join (projects_dir env) project_name in
     let* exists_path := os_path_exists project_path in
     if negb exists_path
     then ret (false, "", "Project path not found: " +:+ project_path)
     else
       let compose_file := path_join project_path "docker-compose.yml" in
       let* exists_compose := os_path_exists compose_file in
       if negb exists_compose
       then ret (false, "", "docker-compose.yml not found")
       else
         let* res := _run_compose project_path ["down"] in
         let '(rc, out, err) := res in
         ret (bool_decide (rc = 0), out, err))
    (λ e,
       let msg := "Error stopping project " +:+ project_name +:+ ": " +:+ exn_str e in
       let* _ := print msg in
       ret (false, "", msg)).

Definition delete_project (project_name : string) : M (bool * string * string) :=
  try_except
    (let project_path := path_join (projects_dir env) project_name in
     let* exists_path := os_path_exists project_path in
     if negb exists_path
     then ret (false, "", "Project path not found: " +:+ project_path)
     else
       (* First stop the project if it's running (ignore errors) *)
       let* _ := stop_project project_name in
       (* Remove docker containers and volumes *)
       let* res := _run_compose project_path ["down"; "-v"; "--remove-orphans"] in
       let '(rc, out1, err1) := res in
       (* Attempt to delete project directory regardless of rc from compose *)
       let* removal :=
         try_except
           (let* _ := shutil_rmtree project_path in
            ret ("project directory removed", ""))
           (λ e, ret ("", "failed to remove project directory: " +:+ exn_str e)) in
       let '(out2, err2) := removal in
       let success := bool_decide (rc = 0) && bool_decide (err2 = "") in
       let combined_out := PyStr.join PyStr.nl (PyStr.nonempty [out1; out2]) in
       let combined_err := PyStr.join PyStr.nl (PyStr.nonempty [err1; err2]) in
       ret (success, combined_out, combined_err))
    (λ e,
       let msg := "Error deleting project " +:+ project_name +:+ ": " +:+ exn_str e in
       let* _ := print msg in
       ret (false, "", msg)).

(** The local [base_ports] of [create_project]. *)
Definition base_ports : dict :=
  [("studio", 3000); ("kong", 8000); ("auth", 9999); ("rest", 3001);
   ("realtime", 4000); ("storage", 5000); ("meta", 8080);
   ("functions", 54321); ("analytics", 4001); ("vector", 9001)].

(** The truth value of the triple returned by [start_project]: a tuple
    with components is true, whatever they are. *)
Definition truth_of_triple (t : bool * string * string) : bool := true.

(** The parameters [username], [password] and [use_local_db] of the method
    are not used by its body and are left out. *)
Definition create_project (project_name machine_size specs : string)
    (db_host db_port db_user db_password : string) : M string :=
  let* _ := clear_logs in
  let* _ := log ("Starting Supabase project creation: " +:+ project_name) "INFO" in
  (* Validate project name uniqueness *)
  let* _ := log "Validating project name uniqueness..." "INFO" in
  let project_path := path_join (projects_dir env) project_name in
  let* taken := os_path_exists project_path in
  if taken then
    let* _ := log ("Project '" +:+ project_name +:+ "' already exists!") "ERROR" in
    raise (Exn ValueError
             ("Project '" +:+ project_name
              +:+ "' already exists. Please choose a different name."))
  else
  (* Validate machine size *)
  let* _ := log "Validating machine size configuration..." "INFO" in
  let valid_machine_sizes := ["small"; "medium"; "large"; "xlarge"] in
  if negb (bool_decide (machine_size ∈ valid_machine_sizes)) then
    let* _ := log ("Invalid machine size: " +:+ machine_size) "ERROR" in
    raise (Exn ValueError
             ("Invalid machine size. Choose from: "
              +:+ PyStr.join ", " valid_machine_sizes))
  else
  (* Verify PostgreSQL connection *)
  let* _ := log ("Using hosted PostgreSQL server at " +:+ db_host +:+ ":" +:+ db_port)
              "INFO" in
  let* _ := log "⚠️  NOT using any local PostgreSQL installation" "INFO" in
  (* Create project directory *)
  let* _ := log ("Creating project directory: " +:+ project_path) "INFO" in
  let* _ := os_makedirs project_path in
  (* Generate JWT keys with project reference *)
  let* _ := log "Generating Supabase-compatible JWT tokens..." "INFO" in
  let* tok := token_urlsafe 16 in
  let project_ref := project_ref_of_token tok in
  let* keys := generate_jwt_keys (Some project_ref) in
  let '(anon_key, service_key, jwt_secret) := keys in
  let* _ := log ("Generated project reference: " +:+ project_ref) "INFO" in
  let* _ := log "✅ JWT tokens generated successfully" "INFO" in
  (* Get machine IP *)
  let* _ := log "Detecting machine IP address..." "INFO" in
  let* machine_ip := get_machine_ip in
  let* _ := log ("Machine IP detected: " +:+ machine_ip) "INFO" in
  (* Define base ports for services *)
  let* _ := log "Checking port availability for Supabase services..." "INFO" in
  let base_ports := base_ports in
  (* Find available ports *)
  let* available_ports :=
    try_except
      (let* available_ports := find_available_ports base_ports in
       let* _ := log "✅ Port allocation completed:" "INFO" in
       let* _ :=
         for_each available_ports
           (λ '(service, port),
              log ("  • " +:+ PyStr.title service +:+ ": " +:+ pretty port) "INFO") in
       ret available_ports)
      (λ e,
         let* _ := log ("Port allocation failed: " +:+ exn_str e) "ERROR" in
         raise (Exn ValueError ("Port allocation failed: " +:+ exn_str e))) in
  (* Create database configuration *)
  let db_config := mkDbConfig db_host db_port db_user db_password project_name in
  (* Create project configuration *)
  let* _ := log "Creating project configuration..." "INFO" in
  let* now := datetime_now in
  let config :=
    mkConfig project_name project_ref machine_size specs machine_ip db_config
      anon_key service_key jwt_secret (isoformat now) available_ports in
  (* Save configuration *)
  let* _ := log "Saving project configuration..." "INFO" in
  let config_path := path_join project_path "supabase_config.json" in
  let* _ := write_text config_path (json_dumps env config) in
  (* Create docker-compose.yml for the project *)
  let* _ := log "Generating Docker Compose configuration..." "INFO" in
  let* _ := create_docker_compose project_path project_name config in
  let* _ := log "✅ Supabase project created successfully!" "INFO" in
  (* Auto-start the project after creation *)
  let* _ := log "🚀 Starting project services..." "INFO" in
  let* started := start_project project_name in
  let* _ :=
    if truth_of_triple started
    then log "✅ Project services started successfully!" "INFO"
    else log "⚠️ Warning: Failed to start some services automatically" "INFO" in
  let* _ := log ("📁 Project location: " +:+ project_path) "INFO" in
  let* studio_port := dict_subscript available_ports "studio" in
  let* _ := log ("🌐 Supabase Studio will be available at: http://" +:+ machine_ip
                 +:+ ":" +:+ pretty studio_port) "INFO" in
  let* kong_port := dict_subscript available_ports "kong" in
  let* _ := log ("🔌 API Gateway (Kong) at: http://" +:+ machine_ip
                 +:+ ":" +:+ pretty kong_port) "INFO" in
  let* _ := print ("Supabase project '" +:+ project_name
                   +:+ "' created successfully at " +:+ project_path) in
  ret project_path.

(** ** The status operations

    [project_status_api] of the web interface and [status_project] of the
    command line. *)

(** What [project_status_api] answers: the JSON object and the HTTP status. *)
Inductive status_reply :=
  | Reply200 (name : string) (status : list (string * bool)) (ports : dict)
      (machine_ip : string)
  | Reply404
  | Reply500 (error : string).

(** [json.load] of the file at [p] *)
Definition json_load (p : string) : M Config :=
  let* text := read_text p in
  lift (json_loads env text).

(** [{svc: generator.get_service_status(port) for svc, port in ports.items()}] *)
Fixpoint service_status (items : dict) : M (list (string * bool)) :=
  match items with
  | [] => ret []
  | (svc, port) :: items' =>
      let* up := get_service_status port in
      let* rest := service_status items' in
      ret ((svc, up) :: rest)
  end.

Definition project_status_api (project_name : string) : M status_reply :=
  try_except
    (let config_path :=
       path_join (path_join (projects_dir env) project_name) "supabase_config.json" in
     let* found := os_path_exists config_path in
     if negb found then ret Reply404
     else
       let* config := json_load config_path in
       let ports := ports config in
       let* status := service_status ports in
       ret (Reply200 project_name status ports (machine_ip config)))
    (λ e, ret (Reply500 (exn_str e))).

(** The colour codes of [colorama]. *)
Definition esc : string := String (ascii_of_nat 27) EmptyString.
Definition Fore_RED : string := esc +:+ "[31m".
Definition Fore_CYAN : string := esc +:+ "[36m".
Definition Style_RESET_ALL : string := esc +:+ "[0m".

Definition print_error (message : string) : M unit :=
  print (Fore_RED +:+ "❌ " +:+ message +:+ Style_RESET_ALL).

Definition _check_project_status (project_name : string) : M bool :=
  try_except
    (let project_path := path_join (projects_dir env) project_name in
     let compose_file := path_join project_path "docker-compose.yml" in
     let* found := os_path_exists compose_file in
     if negb found then ret false
     else
       (* Use docker compose ps to check status *)
       let* res :=
         subprocess_run
           ["docker"; "compose"; "ps"; "--services"; "--filter"; "status=running"]
           project_path in
       let '(returncode, stdout, _) := res in
       ret (bool_decide (returncode = 0) && negb (PyStr.all PyStr.is_space stdout)))
    (λ _, ret false).

Definition status_project (name : string) : M Z :=
  try_except
    (let project_path := path_join (projects_dir env) name in
     let config_path := path_join project_path "supabase_config.json" in
     let* found := os_path_exists config_path in
     if negb found then
       let* _ := print_error ("Project '" +:+ name +:+ "' not found") in
       ret 1
     else
       let* config := json_load config_path in
       let* _ := print (PyStr.nl +:+ Fore_CYAN +:+ "📊 Project Status: " +:+ name
                        +:+ Style_RESET_ALL) in
       let* _ := print (PyStr.repeat "-" 50) in
       (* Check if project is running *)
       let* status := _check_project_status name in
       let status_icon := if status then "🟢" else "🔴" in
       let status_text := if status then "Running" else "Stopped" in
       let* _ := print ("Status: " +:+ status_icon +:+ " " +:+ status_text) in
       let* _ := print ("Size: " +:+ machine_size config) in
       let* _ := print ("Specs: " +:+ specs config) in
       let* _ := print ("Created: " +:+ created_at config) in
       let* _ := print (PyStr.nl +:+ Fore_CYAN +:+ "🌐 Service URLs:" +:+ Style_RESET_ALL) in
       let* _ :=
         for_each (ports config)
           (λ '(service, port),
              print ("  " +:+ PyStr.title service +:+ ": http://" +:+ machine_ip config
                     +:+ ":" +:+ pretty port)) in
       let* _ := print (PyStr.nl +:+ Fore_CYAN +:+ "🗄️ Database:" +:+ Style_RESET_ALL) in
       let* _ := print ("  Host: " +:+ db_host (db_config config)) in
       let* _ := print ("  Port: " +:+ db_port (db_config config)) in
       let* _ := print ("  Database: " +:+ db_database (db_config config)) in
       let* _ := print ("  User: " +:+ db_user (db_config config)) in
       let* _ := print (PyStr.nl +:+ Fore_CYAN +:+ "🔑 API Keys:" +:+ Style_RESET_ALL) in
       let* _ := print ("  Anon: " +:+ anon_key config) in
       let* _ := print ("  Service: " +:+ service_key config) in
       ret 0)
    (λ e,
       let* _ := print_error ("Failed to get project status: " +:+ exn_str e) in
       ret 1).

End Model.

(** * Vocabulary of the specifications *)

(** A bind on [port] succeeds: the number is a port number and nothing
    holds the port. *)
Definition port_free (w : World) (port : Z) : Prop :=
  0 ≤ port ≤ 65535 ∧ port ∉ ports_in_use w.

(** [p] is the first free port at or above [base]. *)
Definition first_free_from (w : World) (base p : Z) : Prop :=
  base ≤ p ∧ port_free w p ∧ ∀ q, base ≤ q < p → q ∈ ports_in_use w.

(** What [find_available_ports] gives the entry [b] of [base_ports]: the
    entry [a] of the result. *)
Definition allocated (w : World) (b a : string * Z) : Prop :=
  a.1 = b.1 ∧ first_free_from w b.2 a.2 ∧ a.2 ≤ b.2 + 100.

(** A check, by computation, that every service of [base_ports] has a valid
    base and a free port among the 101 ports from its base on. *)
Definition windows_free (w : World) (base_ports : dict) : bool :=
  forallb
    (λ sb, bool_decide (0 ≤ sb.2)
           && existsb (λ p, bool_decide (0 ≤ p ≤ 65535)
                            && bool_decide (p ∉ ports_in_use w))
                (seqZ sb.2 101))
    base_ports.

(** A lowercase letter or a digit. *)
Definition lower_alnum (c : ascii) : bool := PyStr.is_lower c || PyStr.is_digit c.

(** A hyphen or an underscore: what the two [replace] calls strip. *)
Definition stripped (c : ascii) : bool :=
  Ascii.eqb c "-"%char || Ascii.eqb c "_"%char.

(** A character of the URL-safe alphabet. *)
Definition is_b64 (c : ascii) : bool :=
  PyStr.is_upper c || PyStr.is_lower c || PyStr.is_digit c || stripped c.

(** The text before truncation: [tok.lower().replace('_', '').replace('-', '')]. *)
Definition squeezed (tok : string) : string :=
  PyStr.remove "-"%char (PyStr.remove "_"%char (PyStr.lower tok)).

(** The project reference [generate_jwt_keys] signs: the one given, or a
    fresh one when none is given. *)
Definition signed_ref (env : Env) (project_ref : option string) (w : World) : string :=
  let fresh :=
    project_ref_of_token (urlsafe_text (map (urandom env (S (draws w))) (seq 0 16))) in
  match project_ref with
  | Some r => if bool_decide (r = "") then fresh else r
  | None => fresh
  end.

(** What [os.path.join] puts between its two components. *)
Definition sep_of (a : string) : string :=
  if bool_decide (a = "") || PyStr.endswith a "/" then "" else "/".

(** The computation [m] changes the file system only at paths that
    satisfy [P]. *)
Definition writes_within {A} (P : string → Prop) (m : M A) : Prop :=
  ∀ w r w', m w = (r, w') → ∀ p, ¬ P p → fs w' !! p = fs w !! p.

(** The computation [m] returns a value from every world. *)
Definition never_raises {A} (m : M A) : Prop :=
  ∀ w, ∃ a w', m w = (Ok a, w').

(** [Q] holds of the value and the world when the run returns a value. *)
Definition post {A} (r : result A * World) (Q : A → World → Prop) : Prop :=
  match r with
  | (Ok a, w') => Q a w'
  | (Raise _, _) => True
  end.

(** The world after [log message level]. *)
Definition logged (env : Env) (message level : string) (w : World) : World :=
  let log_entry :=
    "[" +:+ hms (clock env (ticks w)) +:+ "] " +:+ level +:+ ": " +:+ message in
  set_console (console w ++ [log_entry])
    (set_logs (logs w ++ [log_entry]) (set_ticks (S (ticks w)) w)).

(** What the three operations answer for a project that has no directory. *)
Definition path_not_found (env : Env) (project_name : string) : bool * string * string :=
  (false, "", "Project path not found: " +:+ path_join (projects_dir env) project_name).

(** The world after the three log lines of a create refused for its name. *)
Definition refused_duplicate (env : Env) (project_name : string) (w : World) : World :=
  logged env ("Project '" +:+ project_name +:+ "' already exists!") "ERROR"
    (logged env "Validating project name uniqueness..." "INFO"
       (logged env ("Starting Supabase project creation: " +:+ project_name) "INFO"
          (set_logs [] w))).

(** * Reference instances of the libraries and of the host

    An ideal serialisation, used where a statement needs some decoder for
    the texts that PyJWT and [json] produce: a value is written as the binary
    digits of its code as a countable type. *)

Module Ideal.

Fixpoint bits_of_pos (p : positive) : string :=
  match p with
  | xH => EmptyString
  | xO q => String "0"%char (bits_of_pos q)
  | xI q => String "1"%char (bits_of_pos q)
  end.

Fixpoint pos_of_bits (s : string) : positive :=
  match s with
  | EmptyString => xH
  | String c r => if Ascii.eqb c "1"%char then xI (pos_of_bits r) else xO (pos_of_bits r)
  end.

#[global] Instance Payload_eq_dec : EqDecision Payload.
Proof. solve_decision. Defined.

#[global] Instance Payload_countable : Countable Payload.
Proof.
  apply (inj_countable' (λ p, ((iss p, ref p), (role p, (iat p, exp p))))
           (λ t, let '((a, b), (c, (d, e))) := t in mkPayload a b c d e)).
  by intros [].
Defined.

#[global] Instance DbConfig_eq_dec : EqDecision DbConfig.
Proof. solve_decision. Defined.

#[global] Instance DbConfig_countable : Countable DbConfig.
Proof.
  apply (inj_countable'
           (λ d, ((db_host d, db_port d), (db_user d, (db_password d, db_database d))))
           (λ t, let '((a, b), (c, (d, e))) := t in mkDbConfig a b c d e)).
  by intros [].
Defined.

#[global] Instance Config_eq_dec : EqDecision Config.
Proof. solve_decision. Defined.

#[global] Instance Config_countable : Countable Config.
Proof.
  apply (inj_countable'
           (λ c, ((((project_name c, project_ref c), (machine_size c, specs c)),
                   ((machine_ip c, db_config c), (anon_key c, service_key c))),
                  ((jwt_secret c, created_at c), ports c)))
           (λ t, let '((((a, b), (c, d)), ((e, f), (g, h))), ((i, j), k)) := t in
                 mkConfig a b c d e f g h i j k)).
  by intros [].
Defined.

Definition dumps {A} `{Countable A} (a : A) : string := bits_of_pos (encode a).

Definition loads {A} `{Countable A} (s : string) : option A := decode (pos_of_bits s).

(** A token carries its claim set and the key it was signed with. *)
Definition jwt_encode (payload : Payload) (key : string) : string :=
  dumps (payload, key).

(** Decoding succeeds with the signing key and fails with any other. *)
Definition jwt_decode (token key : string) : option Payload :=
  match loads token with
  | Some (payload, key') => if decide (key' = key) then Some payload else None
  | None => None
  end.

Definition json_dumps (config : Config) : string := dumps config.

Definition json_loads (text : string) : result Config :=
  match loads text with
  | Some config => Ok config
  | None => Raise (Exn JSONDecodeError "Expecting value: line 1 column 1 (char 0)")
  end.

(** A host on which both command dialects are installed: tokens are made
    by [jwt], the random bytes are all [byte], the outcome of a subprocess is
    given by [run], and the clock reads 1700000000 seconds and counts up by
    one. *)
Definition machine (jwt : Payload → string → string) (byte : Byte.byte)
    (run : nat → list string → string → proc_outcome) : Env :=
  mkEnv "/root/supabase_projects"
    (λ _, true)
    run
    (λ _ _, byte)
    (λ n, mkInstant (1700000000 + Z.of_nat n) "12:00:00" "2023-11-14T22:13:20")
    (Some "192.168.1.10")
    jwt json_dumps json_loads.

(** Every subprocess exits with code 0 and prints nothing. *)
Definition all_succeed (n : nat) (cmd : list string) (cwd : string) : proc_outcome :=
  Completed 0 "" "".

(** The host with ideal tokens, on which every command succeeds. *)
Definition host (byte : Byte.byte) : Env := machine jwt_encode byte all_succeed.

(** The same host with the outcome of each subprocess given by [run]. *)
Definition host_running (run : nat → list string → string → proc_outcome) : Env :=
  machine jwt_encode Byte.x00 run.

(** A host whose tokens are short: the role and the project reference. *)
Definition small_host : Env :=
  machine (λ payload key, role payload +:+ "." +:+ ref payload) Byte.x00 all_succeed.

End Ideal.

(** * Worlds and hosts of the examples *)

(** A world with an empty file system and the given ports in use. *)
Definition world_with_ports (l : list Z) : World :=
  mkWorld ∅ (list_to_set l) [] 0 0 [] [].

(** The subprocess outcomes of the counterexample: the primary dialect runs
    and exits with code 1, the legacy dialect exits with code 0. *)
Definition primary_fails (n : nat) (cmd : list string) (cwd : string) : proc_outcome :=
  match cmd with
  | "docker" :: _ => Completed 1 "" "unknown command: docker compose"
  | _ => Completed 0 "Container started" ""
  end.

(** A configuration as [create_project] makes it. *)
Definition alpha_config : Config :=
  mkConfig "alpha" "abcdefghij0123456789" "small" "2CPU/4GB RAM" "192.168.1.10"
    (mkDbConfig "192.168.1.43" "5432" "postgres" "your_password" "alpha")
    "anon-token" "service-token" "secret" "2023-11-14T22:13:20" base_ports.

(** A project made by an older version: its topology file names the
    deprecated image tag. *)
Definition old_project : World :=
  set_fs
    (<["/root/supabase_projects/alpha/supabase_config.json" := File "{}"]>
       (<["/root/supabase_projects/alpha/docker-compose.yml" :=
            File "    image: supabase/gotrue:latest"]>
          (<["/root/supabase_projects/alpha" := Dir]> ∅)))
    (world_with_ports []).

(** * Properties *)

(** * Laws of the monad *)

Lemma bind_Ok {A B} (m : M A) (k : A → M B) w a w' :
  m w = (Ok a, w') → bind m k w = k a w'.
Proof. intros H. unfold bind. by rewrite H. Qed.

Lemma bind_Raise {A B} (m : M A) (k : A → M B) w e w' :
  m w = (Raise e, w') → bind m k w = (Raise e, w').
Proof. intros H. unfold bind. by rewrite H. Qed.

Lemma bind_inv_Ok {A B} (m : M A) (k : A → M B) w b w' :
  bind m k w = (Ok b, w') →
  ∃ a w1, m w = (Ok a, w1) ∧ k a w1 = (Ok b, w').
Proof.
  unfold bind. destruct (m w) as [[a|e] w1]; [eauto | discriminate].
Qed.

(** * Port allocation *)

Lemma set_ports_in_use_id w : set_ports_in_use (ports_in_use w) w = w.
Proof. by destruct w. Qed.

Lemma check_port_availability_in_range w port :
  0 ≤ port ≤ 65535 →
  check_port_availability port w = (Ok (bool_decide (port ∉ ports_in_use w)), w).
Proof.
  intros Hr. unfold check_port_availability, try_except_OSError, bind, sock_bind.
  rewrite bool_decide_true by done.
  destruct (decide (port ∈ ports_in_use w)) as [Hin|Hout].
  - rewrite bool_decide_true by done. simpl.
    by rewrite bool_decide_false by (by intros ?).
  - rewrite bool_decide_false by done. simpl.
    rewrite bool_decide_true by done.
    unfold ret. do 2 f_equal. destruct w as [f l p t d lg c]. simpl in *.
    unfold set_ports_in_use. simpl. f_equal.
    apply leibniz_equiv. intros x.
    rewrite elem_of_difference, elem_of_union, elem_of_singleton. split.
    + by intros [[->|?] ?].
    + intros Hx. split; [by right | by intros ->].
Qed.

Lemma check_port_availability_out_of_range w port :
  ¬ (0 ≤ port ≤ 65535) →
  check_port_availability port w
  = (Raise (Exn OverflowError "bind(): port must be 0-65535."), w).
Proof.
  intros Hr. unfold check_port_availability, try_except_OSError, bind, sock_bind.
  by rewrite bool_decide_false by done.
Qed.

Lemma probe_unfold fuel service base_port port :
  probe fuel service base_port port
  = bind (check_port_availability port) (λ available,
      if available then ret port
      else
        if bool_decide (port + 1 > base_port + 100)
        then raise (Exn Exception
                      ("Could not find available port for " +:+ service +:+ " service"))
        else match fuel with
             | S fuel' => probe fuel' service base_port (port + 1)
             | O => raise (Exn NonTermination "probe")
             end).
Proof. by destruct fuel. Qed.

Lemma allocate_cons service base_port (items acc : dict) :
  allocate ((service, base_port) :: items) acc
  = bind (probe 100 service base_port base_port)
      (λ port, allocate items (dict_set acc service port)).
Proof. done. Qed.

#[global] Opaque probe.

(** With the fuel that [allocate] gives it, the probe never runs out of
    fuel: it returns a port or raises a Python exception. *)
Lemma probe_terminates fuel service base_port port w e w' :
  (Z.to_nat (base_port + 100 - port) ≤ fuel)%nat →
  probe fuel service base_port port w = (Raise e, w') →
  exn_class_of e ≠ NonTermination.
Proof.
  revert port w. induction fuel as [|fuel IH]; intros port w Hfuel;
    rewrite probe_unfold; unfold bind;
    destruct (decide (0 ≤ port ≤ 65535)) as [Hr|Hr].
  - rewrite check_port_availability_in_range by done.
    case_bool_decide; [by intros [=]|].
    case_bool_decide; [by intros [= <- <-] | lia].
  - rewrite check_port_availability_out_of_range by done. by intros [= <- <-].
  - rewrite check_port_availability_in_range by done.
    case_bool_decide; [by intros [=]|].
    case_bool_decide; [by intros [= <- <-]|]. apply IH. lia.
  - rewrite check_port_availability_out_of_range by done. by intros [= <- <-].
Qed.

(** The probe stops at the first free port, which it returns, and leaves
    no socket bound. *)
Lemma probe_finds fuel service base port p w :
  0 ≤ port → port ≤ p ≤ base + 100 →
  (Z.to_nat (p - port) ≤ fuel)%nat →
  first_free_from w port p →
  probe fuel service base port w = (Ok p, w).
Proof.
  revert port. induction fuel as [|fuel IH]; intros port H0 Hp Hfuel (Hle & Hfree & Hbusy).
  - assert (p = port) as -> by lia.
    rewrite probe_unfold. erewrite bind_Ok; last by apply check_port_availability_in_range, Hfree.
    by rewrite bool_decide_true by apply Hfree.
  - rewrite probe_unfold. destruct (decide (p = port)) as [->|Hne].
    + erewrite bind_Ok; last by apply check_port_availability_in_range, Hfree.
      by rewrite bool_decide_true by apply Hfree.
    + assert (port ∈ ports_in_use w) as Hin by (apply Hbusy; lia).
      erewrite bind_Ok; last first.
      { apply check_port_availability_in_range. destruct Hfree as [? _]. lia. }
      rewrite bool_decide_false by (by intros ?).
      rewrite bool_decide_false by lia.
      apply IH; [lia | lia | lia |].
      split; [lia|]. split; [done|]. intros q Hq. apply Hbusy. lia.
Qed.

(** When every port from [port] to [base + 100] is taken, the probe raises
    the exhaustion error for its service, and leaves no socket bound. *)
Lemma probe_exhausted fuel service base port w :
  0 ≤ port → port ≤ base + 100 → base + 100 ≤ 65535 →
  (Z.to_nat (base + 100 - port) ≤ fuel)%nat →
  (∀ q, port ≤ q ≤ base + 100 → q ∈ ports_in_use w) →
  probe fuel service base port w
  = (Raise (Exn Exception
              ("Could not find available port for " +:+ service +:+ " service")), w).
Proof.
  revert port. induction fuel as [|fuel IH]; intros port H0 Hp Hmax Hfuel Hbusy.
  - assert (port = base + 100) as -> by lia.
    rewrite probe_unfold. erewrite bind_Ok; last by (apply check_port_availability_in_range; lia).
    rewrite bool_decide_false by (intros Hn; apply Hn, Hbusy; lia).
    by rewrite bool_decide_true by lia.
  - rewrite probe_unfold. erewrite bind_Ok; last by (apply check_port_availability_in_range; lia).
    rewrite bool_decide_false by (intros Hn; apply Hn, Hbusy; lia).
    destruct (decide (port + 1 > base + 100)) as [Hgt|Hle].
    + by rewrite bool_decide_true by done.
    + rewrite bool_decide_false by done.
      apply IH; [lia | lia | lia | lia |]. intros q Hq. apply Hbusy. lia.
Qed.

Lemma first_free_exists w base p :
  0 ≤ base → base ≤ p → port_free w p →
  ∃ p', first_free_from w base p' ∧ p' ≤ p.
Proof.
  intros H0 Hle Hfree.
  remember (Z.to_nat (p - base)) as n eqn:Hn.
  revert base H0 Hle Hn. induction n as [|n IH]; intros base H0 Hle Hn.
  - assert (p = base) as -> by lia.
    exists base. split; [|lia]. split; [lia|]. split; [done|]. intros q Hq. lia.
  - destruct (decide (base ∈ ports_in_use w)) as [Hin|Hout].
    + destruct (IH (base + 1)) as (p' & (Hb & Hf & Hbusy) & Hp'); [lia..|].
      exists p'. split; [|done]. split; [lia|]. split; [done|].
      intros q Hq. destruct (decide (q = base)) as [->|]; [done|]. apply Hbusy. lia.
    + exists base. split; [|lia]. split; [lia|]. split.
      * split; [|done]. destruct Hfree as [? _]. lia.
      * intros q Hq. lia.
Qed.

Lemma first_free_unique w base p1 p2 :
  first_free_from w base p1 → first_free_from w base p2 → p1 = p2.
Proof.
  intros (H1 & [_ Hf1] & Hb1) (H2 & [_ Hf2] & Hb2).
  destruct (Z.lt_trichotomy p1 p2) as [Hlt|[Heq|Hgt]]; [|done|].
  - exfalso. apply Hf1, Hb2. lia.
  - exfalso. apply Hf2, Hb1. lia.
Qed.

(** Two probes that start at [b1 ≤ b2] end on different ports exactly when
    the lower one stops below [b2]. *)
Lemma first_free_distinct w b1 p1 b2 p2 :
  first_free_from w b1 p1 → first_free_from w b2 p2 → b1 ≤ b2 →
  p1 ≠ p2 ↔ p1 < b2.
Proof.
  intros (H1 & [Hr1 Hf1] & Hb1) (H2 & [Hr2 Hf2] & Hb2) Hle. split.
  - intros Hne. destruct (decide (p1 < b2)) as [|Hge]; [done|]. exfalso.
    destruct (Z.lt_trichotomy p1 p2) as [Hlt|[Heq|Hgt]]; [|done|].
    + apply Hf1, Hb2. lia.
    + apply Hf2, Hb1. lia.
  - lia.
Qed.

Lemma dict_set_fresh (d : dict) k v :
  k ∉ d.*1 → dict_set d k v = d ++ [(k, v)].
Proof.
  induction d as [|[k' v'] d IH]; intros Hk; [done|].
  rewrite fmap_cons in Hk. apply not_elem_of_cons in Hk as [Hne Hk]. simpl.
  rewrite decide_False by done. f_equal. by apply IH.
Qed.

Lemma allocate_succeeds w (items acc : dict) :
  NoDup (acc.*1 ++ items.*1) →
  (∀ service base_port, (service, base_port) ∈ items →
     0 ≤ base_port ∧ ∃ p, base_port ≤ p ≤ base_port + 100 ∧ port_free w p) →
  ∃ new, allocate items acc w = (Ok (acc ++ new), w) ∧ Forall2 (allocated w) items new.
Proof.
  revert acc. induction items as [|[service base_port] items IH]; intros acc Hnd Hfree.
  - exists []. split; [by rewrite app_nil_r | constructor].
  - destruct (Hfree service base_port) as (H0 & p & Hp & Hpf); [by left|].
    destruct (first_free_exists w base_port p) as (p' & Hff & Hp'); [lia..|done|].
    assert (probe 100 service base_port base_port w = (Ok p', w)) as Hprobe.
    { destruct Hff as (? & ? & ?). apply probe_finds; [lia | lia | lia | done]. }
    rewrite allocate_cons. erewrite bind_Ok; last exact Hprobe.
    apply NoDup_app in Hnd as (Hacc & Hdisj & Hitems). simpl in Hitems.
    apply NoDup_cons in Hitems as [Hfresh Hitems].
    rewrite dict_set_fresh by (intros Hin; eapply Hdisj; [done | by left]).
    destruct (IH (acc ++ [(service, p')])) as (new & Hrun & Hall).
    + rewrite fmap_app. simpl. apply NoDup_app. split; [|split; [|done]].
      * apply NoDup_app. split; [done|]. split; [|apply NoDup_singleton].
        intros x Hx Hx'. apply list_elem_of_singleton in Hx' as ->.
        eapply Hdisj; [done | by left].
      * intros x Hx Hx'. apply elem_of_app in Hx as [Hx|Hx].
        -- eapply Hdisj; [done | by right].
        -- apply list_elem_of_singleton in Hx as ->. done.
    + intros s b Hin. apply (Hfree s b). by right.
    + exists ((service, p') :: new). split.
      * rewrite Hrun. by rewrite <- app_assoc.
      * constructor; [|done]. repeat split; simpl; try apply Hff. lia.
Qed.

Lemma allocate_exhausted w (pre post acc : dict) service base_port :
  NoDup (acc.*1 ++ pre.*1) →
  (∀ s b, (s, b) ∈ pre → 0 ≤ b ∧ ∃ p, b ≤ p ≤ b + 100 ∧ port_free w p) →
  0 ≤ base_port → base_port + 100 ≤ 65535 →
  (∀ q, base_port ≤ q ≤ base_port + 100 → q ∈ ports_in_use w) →
  allocate (pre ++ (service, base_port) :: post) acc w
  = (Raise (Exn Exception
              ("Could not find available port for " +:+ service +:+ " service")), w).
Proof.
  revert acc. induction pre as [|[s b] pre IH]; intros acc Hnd Hfree H0 Hmax Hbusy.
  - simpl app. rewrite allocate_cons. erewrite bind_Raise; [done|].
    apply probe_exhausted; [lia | lia | lia | lia | done].
  - destruct (Hfree s b) as (Hb0 & p & Hp & Hpf); [by left|].
    destruct (first_free_exists w b p) as (p' & Hff & Hp'); [lia..|done|].
    assert (probe 100 s b b w = (Ok p', w)) as Hprobe.
    { destruct Hff as (? & ? & ?). apply probe_finds; [lia | lia | lia | done]. }
    rewrite <- app_comm_cons, allocate_cons. erewrite bind_Ok; last exact Hprobe.
    apply NoDup_app in Hnd as (Hacc & Hdisj & Hpre). simpl in Hpre.
    apply NoDup_cons in Hpre as [Hfresh Hpre].
    rewrite dict_set_fresh by (intros Hin; eapply Hdisj; [done | by left]).
    apply IH; [|by intros s' b' Hin; apply (Hfree s' b'); right|done..].
    rewrite fmap_app. simpl. apply NoDup_app. split; [|split; [|done]].
    + apply NoDup_app. split; [done|]. split; [|apply NoDup_singleton].
      intros x Hx Hx'. apply list_elem_of_singleton in Hx' as ->.
      eapply Hdisj; [done | by left].
    + intros x Hx Hx'. apply elem_of_app in Hx as [Hx|Hx].
      * eapply Hdisj; [done | by right].
      * apply list_elem_of_singleton in Hx as ->. done.
Qed.

Lemma allocated_keys w (base avail : dict) :
  Forall2 (allocated w) base avail → avail.*1 = base.*1.
Proof.
  induction 1 as [|b a base avail (Hk & _) _ IH]; [done|].
  rewrite !fmap_cons. by rewrite Hk, IH.
Qed.

Lemma allocated_lookup w (base avail : dict) s b p :
  NoDup base.*1 → Forall2 (allocated w) base avail →
  (s, b) ∈ base → (s, p) ∈ avail →
  first_free_from w b p ∧ p ≤ b + 100.
Proof.
  intros Hnd Hall. revert Hnd.
  induction Hall as [|[s0 b0] [s1 p1] base avail (Hk & Hff & Hle) Hall IH];
    intros Hnd Hb Ha.
  - by apply elem_of_nil in Hb.
  - simpl in Hk. subst s1. rewrite fmap_cons in Hnd.
    apply NoDup_cons in Hnd as [Hfresh Hnd]. simpl in Hfresh.
    pose proof (allocated_keys w base avail Hall) as Hkeys.
    apply elem_of_cons in Hb as [Hb|Hb]; apply elem_of_cons in Ha as [Ha|Ha].
    + by simplify_eq.
    + simplify_eq. exfalso. apply Hfresh. rewrite <- Hkeys.
      apply list_elem_of_fmap. by exists (s0, p).
    + simplify_eq. exfalso. apply Hfresh.
      apply list_elem_of_fmap. by exists (s0, b).
    + by apply IH.
Qed.

Lemma windows_free_spec w (base_ports : dict) :
  windows_free w base_ports = true →
  ∀ service base_port, (service, base_port) ∈ base_ports →
    0 ≤ base_port ∧ ∃ p, base_port ≤ p ≤ base_port + 100 ∧ port_free w p.
Proof.
  unfold windows_free. rewrite forallb_forall. intros Hall service base_port Hin.
  apply list_elem_of_In, Hall, andb_prop in Hin as [H0 Hex]. cbn [snd] in H0, Hex.
  apply bool_decide_eq_true in H0. split; [done|].
  apply existsb_exists in Hex as (p & Hp & Hfree).
  apply list_elem_of_In, elem_of_seqZ in Hp.
  apply andb_prop in Hfree as [Hr Hf].
  apply bool_decide_eq_true in Hr, Hf.
  exists p. split; [lia|]. by split.
Qed.

(** C1 (as amended).  For every [base_ports] map with distinct service
    names and valid bases in which each service has a free port among the
    101 ports from its base on, [find_available_ports] returns a map with the
    same services in the same order, leaves no socket bound, and gives each
    service the first free port at or above its base, verified free by a
    successful bind.  The values of two services are different exactly when
    the port given to the one with the lower base lies below the base of the
    other; services whose windows overlap can be given the same port. *)
Theorem find_available_ports_allocates (w : World) (base_ports : dict) :
  NoDup base_ports.*1 →
  (∀ service base_port, (service, base_port) ∈ base_ports →
     0 ≤ base_port ∧ ∃ p, base_port ≤ p ≤ base_port + 100 ∧ port_free w p) →
  ∃ available_ports,
    find_available_ports base_ports w = (Ok available_ports, w)
    ∧ Forall2 (allocated w) base_ports available_ports
    ∧ ∀ s1 b1 p1 s2 b2 p2,
        (s1, b1) ∈ base_ports → (s2, b2) ∈ base_ports →
        (s1, p1) ∈ available_ports → (s2, p2) ∈ available_ports →
        b1 ≤ b2 → (p1 ≠ p2 ↔ p1 < b2).
Proof.
  intros Hnd Hfree.
  destruct (allocate_succeeds w base_ports []) as (avail & Hrun & Hall); [done..|].
  exists avail. split; [done|]. split; [done|].
  intros s1 b1 p1 s2 b2 p2 Hb1 Hb2 Ha1 Ha2 Hle.
  destruct (allocated_lookup w base_ports avail s1 b1 p1) as [Hf1 _]; [done..|].
  destruct (allocated_lookup w base_ports avail s2 b2 p2) as [Hf2 _]; [done..|].
  by apply (first_free_distinct w b1 p1 b2 p2).
Qed.

Lemma find_available_ports_allocates_witness :
  ∃ available_ports,
    find_available_ports base_ports (world_with_ports [3000; 8000])
    = (Ok available_ports, world_with_ports [3000; 8000])
    ∧ Forall2 (allocated (world_with_ports [3000; 8000])) base_ports available_ports
    ∧ ∀ s1 b1 p1 s2 b2 p2,
        (s1, b1) ∈ base_ports → (s2, b2) ∈ base_ports →
        (s1, p1) ∈ available_ports → (s2, p2) ∈ available_ports →
        b1 ≤ b2 → (p1 ≠ p2 ↔ p1 < b2).
Proof.
  apply (find_available_ports_allocates (world_with_ports [3000; 8000]) base_ports).
  - apply (bool_decide_unpack _). vm_compute. reflexivity.
  - apply windows_free_spec. vm_compute. reflexivity.
Defined.

(** C1, counterexample.  With port 3000 taken and the rest free, every
    service of [base_ports] has a free port in its window, and the services
    "studio" (base 3000) and "rest" (base 3001) are both given port 3001. *)
Lemma find_available_ports_collision :
  (∀ service base_port, (service, base_port) ∈ base_ports →
     ∃ p, base_port ≤ p ≤ base_port + 100 ∧ port_free (world_with_ports [3000]) p)
  ∧ find_available_ports base_ports (world_with_ports [3000])
    = (Ok [("studio", 3001); ("kong", 8000); ("auth", 9999); ("rest", 3001);
           ("realtime", 4000); ("storage", 5000); ("meta", 8080);
           ("functions", 54321); ("analytics", 4001); ("vector", 9001)],
       world_with_ports [3000]).
Proof.
  split.
  - intros service base_port Hin.
    apply (windows_free_spec (world_with_ports [3000]) base_ports) in Hin as [_ Hex];
      [exact Hex | vm_compute; reflexivity].
  - vm_compute. reflexivity.
Qed.

Lemma find_available_ports_raises (w : World) (pre post : dict) service base_port :
  NoDup pre.*1 →
  (∀ s b, (s, b) ∈ pre → 0 ≤ b ∧ ∃ p, b ≤ p ≤ b + 100 ∧ port_free w p) →
  0 ≤ base_port → base_port + 100 ≤ 65535 →
  (∀ q, base_port ≤ q ≤ base_port + 100 → q ∈ ports_in_use w) →
  find_available_ports (pre ++ (service, base_port) :: post) w
  = (Raise (Exn Exception
              ("Could not find available port for " +:+ service +:+ " service")), w).
Proof. intros. by apply allocate_exhausted. Qed.

(** C3, counterexample.  The 100 ports from 3000 to 3099 are taken and
    port 3100 is free: the window of 100 ports of "studio" is fully occupied,
    and yet allocation succeeds and gives "studio" port 3100. *)
Lemma find_available_ports_probes_101 :
  (∀ q, 3000 ≤ q < 3000 + 100 → q ∈ ports_in_use (world_with_ports (seqZ 3000 100)))
  ∧ find_available_ports base_ports (world_with_ports (seqZ 3000 100))
    = (Ok [("studio", 3100); ("kong", 8000); ("auth", 9999); ("rest", 3100);
           ("realtime", 4000); ("storage", 5000); ("meta", 8080);
           ("functions", 54321); ("analytics", 4001); ("vector", 9001)],
       world_with_ports (seqZ 3000 100)).
Proof.
  split.
  - intros q Hq. unfold world_with_ports. cbn [ports_in_use].
    apply elem_of_list_to_set, elem_of_seqZ. lia.
  - vm_compute. reflexivity.
Qed.

(** * The project reference *)

Lemma nth_forallb {A} (P : A → bool) (l : list A) (n : nat) (d : A) :
  forallb P l = true → P d = true → P (nth n l d) = true.
Proof.
  revert n. induction l as [|x l IH]; intros [|n] Hl Hd; simpl in *; try done.
  - by apply andb_prop in Hl as [? _].
  - apply andb_prop in Hl as [_ Hl]. by apply IH.
Qed.

Lemma b64_char_is_b64 i : is_b64 (b64_char i) = true.
Proof. unfold b64_char. by apply nth_forallb. Qed.

Ltac by_cases_on_char c :=
  destruct c as [[] [] [] [] [] [] [] []]; vm_compute; try reflexivity; try discriminate.

Lemma lower_char_b64 c :
  is_b64 c = true → stripped c = false → lower_alnum (PyStr.lower_char c) = true.
Proof. by_cases_on_char c. Qed.

Lemma stripped_lower_char c : stripped (PyStr.lower_char c) = stripped c.
Proof. by_cases_on_char c. Qed.

Lemma b64_not_pad c : is_b64 c = true → Ascii.eqb c b64_pad = false.
Proof. by_cases_on_char c. Qed.

Lemma lower_alnum_not_stripped c : lower_alnum c = true → stripped c = false.
Proof. by_cases_on_char c. Qed.

Lemma length_take n s : String.length (PyStr.take n s) = Nat.min n (String.length s).
Proof.
  revert s. induction n as [|n IH]; intros [|c s]; simpl; try done. by rewrite IH.
Qed.

Lemma all_take p n s : PyStr.all p s = true → PyStr.all p (PyStr.take n s) = true.
Proof.
  revert s. induction n as [|n IH]; intros [|c s]; simpl; try done.
  intros [Hc Hs]%andb_prop. by rewrite Hc, IH.
Qed.

Lemma length_squeezed s :
  (String.length (squeezed s) + PyStr.count stripped s)%nat = String.length s.
Proof.
  unfold squeezed. induction s as [|c s IH]; [done|].
  cbn [PyStr.lower PyStr.remove PyStr.count String.length].
  rewrite <- (stripped_lower_char c).
  destruct (Ascii.eqb (PyStr.lower_char c) "_") eqn:Hu.
  - assert (stripped (PyStr.lower_char c) = true) as ->
      by (unfold stripped; rewrite Hu; apply orb_true_r).
    lia.
  - cbn [PyStr.remove]. destruct (Ascii.eqb (PyStr.lower_char c) "-") eqn:Hd.
    + assert (stripped (PyStr.lower_char c) = true) as ->
        by (unfold stripped; by rewrite Hd).
      lia.
    + assert (stripped (PyStr.lower_char c) = false) as ->
        by (unfold stripped; by rewrite Hd, Hu).
      cbn [String.length]. lia.
Qed.

Lemma all_squeezed s :
  PyStr.all is_b64 s = true → PyStr.all lower_alnum (squeezed s) = true.
Proof.
  unfold squeezed. induction s as [|c s IH]; [done|].
  cbn [PyStr.lower PyStr.remove PyStr.all]. intros [Hc Hs]%andb_prop.
  pose proof (lower_char_b64 c Hc) as Hl.
  rewrite <- (stripped_lower_char c) in Hl. unfold stripped in Hl.
  destruct (Ascii.eqb (PyStr.lower_char c) "_") eqn:Hu; [by apply IH|].
  cbn [PyStr.remove].
  destruct (Ascii.eqb (PyStr.lower_char c) "-") eqn:Hd; [by apply IH|].
  cbn [PyStr.all]. by rewrite Hl, IH.
Qed.

Lemma project_ref_of_token_length tok :
  String.length (project_ref_of_token tok)
  = Nat.min 20 (String.length tok - PyStr.count stripped tok).
Proof.
  unfold project_ref_of_token. fold (squeezed tok).
  rewrite length_take. pose proof (length_squeezed tok). lia.
Qed.

Lemma project_ref_of_token_chars tok :
  PyStr.all is_b64 tok = true →
  PyStr.all lower_alnum (project_ref_of_token tok) = true.
Proof.
  intros H. unfold project_ref_of_token. fold (squeezed tok).
  by apply all_take, all_squeezed.
Qed.

Lemma rstrip_b64 i s :
  PyStr.rstrip b64_pad (String (b64_char i) s)
  = String (b64_char i) (PyStr.rstrip b64_pad s).
Proof.
  cbn [PyStr.rstrip]. destruct (PyStr.rstrip b64_pad s); [|done].
  by rewrite b64_not_pad by apply b64_char_is_b64.
Qed.

Lemma urlsafe_b64encode_3 a b c rest :
  urlsafe_b64encode (a :: b :: c :: rest)
  = String (b64_char (N.shiftr (Byte.to_N a) 2))
      (String (b64_char (N.lor (N.shiftl (N.land (Byte.to_N a) 3) 4)
                           (N.shiftr (Byte.to_N b) 4)))
         (String (b64_char (N.lor (N.shiftl (N.land (Byte.to_N b) 15) 2)
                              (N.shiftr (Byte.to_N c) 6)))
            (String (b64_char (N.land (Byte.to_N c) 63))
               (urlsafe_b64encode rest)))).
Proof. done. Qed.

Lemma urlsafe_b64encode_1 a :
  urlsafe_b64encode [a]
  = String (b64_char (N.shiftr (Byte.to_N a) 2))
      (String (b64_char (N.shiftl (N.land (Byte.to_N a) 3) 4))
         (String b64_pad (String b64_pad EmptyString))).
Proof. done. Qed.

(** The last character of the token of 16 bytes encodes two bits: it is
    one of A, Q, g and w, and is never stripped. *)
Lemma last_sextet_not_stripped a :
  stripped (b64_char (N.shiftl (N.land (Byte.to_N a) 3) 4)) = false.
Proof. destruct a; vm_compute; reflexivity. Qed.

Lemma count_app p s1 s2 :
  PyStr.count p (s1 +:+ s2) = (PyStr.count p s1 + PyStr.count p s2)%nat.
Proof. induction s1 as [|c s1 IH]; simpl; [done|]. rewrite IH. lia. Qed.

(** The token [secrets.token_urlsafe(16)] makes of 16 bytes has 22
    characters of the URL-safe alphabet, of which at most 21 are hyphens or
    underscores. *)
Lemma urlsafe_text_16 (tok : list Byte.byte) :
  length tok = 16%nat →
  String.length (urlsafe_text tok) = 22%nat
  ∧ PyStr.all is_b64 (urlsafe_text tok) = true
  ∧ (PyStr.count stripped (urlsafe_text tok) ≤ 21)%nat.
Proof.
  intros Hlen.
  do 17 (destruct tok as [|? tok]; try discriminate Hlen). clear Hlen.
  unfold urlsafe_text.
  rewrite !urlsafe_b64encode_3, urlsafe_b64encode_1, !rstrip_b64.
  change (PyStr.rstrip b64_pad (String b64_pad (String b64_pad EmptyString)))
    with EmptyString.
  split; [done|]. split.
  - cbn [PyStr.all]. by rewrite !b64_char_is_b64.
  - cbn [PyStr.count]. rewrite last_sextet_not_stripped.
    repeat match goal with
           | |- context [if ?b then 1%nat else 0%nat] =>
               let n := fresh "n" in
               set (n := if b then 1%nat else 0%nat);
               assert (n ≤ 1)%nat by (subst n; destruct b; lia);
               clearbody n
           end.
    lia.
Qed.

(** C6 (as amended).  Every generated project reference is made of the
    22-character URL-safe token of 16 random bytes, lowercased, with
    underscores and hyphens stripped, truncated to 20 characters.  It
    contains only lowercase letters and digits and has between 1 and 20
    characters: exactly the smaller of 20 and 22 minus the number of
    underscores and hyphens of the token, so 20 only when the token has at
    most two of them. *)
Theorem project_ref_shape (env : Env) (w : World) :
  ∃ tok w',
    token_urlsafe env 16 w = (Ok tok, w')
    ∧ String.length tok = 22%nat
    ∧ String.length (project_ref_of_token tok)
      = Nat.min 20 (22 - PyStr.count stripped tok)
    ∧ (1 ≤ String.length (project_ref_of_token tok) ≤ 20)%nat
    ∧ PyStr.all lower_alnum (project_ref_of_token tok) = true.
Proof.
  exists (urlsafe_text (map (urandom env (draws w)) (seq 0 16))),
         (set_draws (S (draws w)) w).
  split; [done|].
  destruct (urlsafe_text_16 (map (urandom env (draws w)) (seq 0 16)))
    as (Hlen & Hall & Hcount); [done|].
  split; [done|]. rewrite project_ref_of_token_length, Hlen.
  split; [done|]. split; [lia|]. by apply project_ref_of_token_chars.
Qed.

(** C6, counterexample.  The 16 random bytes ff ff fc 00 ... 00 give a
    token with three underscores, and a project reference of 19 characters. *)
Lemma project_ref_short :
  urlsafe_text (Byte.xff :: Byte.xff :: Byte.xfc :: replicate 13 Byte.x00)
  = "___8AAAAAAAAAAAAAAAAAA"
  ∧ project_ref_of_token "___8AAAAAAAAAAAAAAAAAA" = "8aaaaaaaaaaaaaaaaaa"
  ∧ String.length "8aaaaaaaaaaaaaaaaaa" = 19%nat.
Proof. by vm_compute. Qed.

Lemma pos_of_bits_of_pos p : Ideal.pos_of_bits (Ideal.bits_of_pos p) = p.
Proof. induction p; simpl; congruence. Qed.

Lemma Ideal_loads_dumps {A} `{Countable A} (a : A) : Ideal.loads (Ideal.dumps a) = Some a.
Proof. unfold Ideal.loads, Ideal.dumps. by rewrite pos_of_bits_of_pos, decode_encode. Qed.

Lemma Ideal_jwt_decode_encode payload key :
  Ideal.jwt_decode (Ideal.jwt_encode payload key) key = Some payload.
Proof.
  unfold Ideal.jwt_decode, Ideal.jwt_encode. rewrite Ideal_loads_dumps.
  by rewrite decide_True.
Qed.

Lemma Ideal_json_loads_dumps config :
  Ideal.json_loads (Ideal.json_dumps config) = Ok config.
Proof. unfold Ideal.json_loads, Ideal.json_dumps. by rewrite Ideal_loads_dumps. Qed.

(** * Credentials *)

Lemma token_urlsafe_run env n w :
  token_urlsafe env n w
  = (Ok (urlsafe_text (map (urandom env (draws w)) (seq 0 n))),
     set_draws (S (draws w)) w).
Proof. done. Qed.

Lemma datetime_now_run env w :
  datetime_now env w = (Ok (clock env (ticks w)), set_ticks (S (ticks w)) w).
Proof. done. Qed.

Lemma generate_jwt_keys_run env project_ref w :
  ∃ w',
    generate_jwt_keys env project_ref w
    = (let secret_key := urlsafe_text (map (urandom env (draws w)) (seq 0 48)) in
       let r := signed_ref env project_ref w in
       let current_time := unix (clock env (ticks w)) in
       let expiry_time := current_time + ten_years in
       Ok (jwt_encode env (mkPayload "supabase" r "anon" current_time expiry_time)
             secret_key,
           jwt_encode env (mkPayload "supabase" r "service_role" current_time expiry_time)
             secret_key,
           secret_key), w')
    ∧ fs w' = fs w ∧ ports_in_use w' = ports_in_use w ∧ procs w' = procs w
    ∧ logs w' = logs w ∧ console w' = console w.
Proof.
  unfold generate_jwt_keys, signed_ref.
  rewrite (bind_Ok _ _ _ _ _ (token_urlsafe_run env 48 w)).
  destruct project_ref as [r|]; [case_bool_decide|].
  - rewrite (bind_Ok _ _ _ _ _ (bind_Ok _ _ _ _ _ (token_urlsafe_run env 16 _))).
    rewrite (bind_Ok _ _ _ _ _ (datetime_now_run env _)).
    eexists. split; [reflexivity|]. done.
  - erewrite bind_Ok by reflexivity.
    rewrite (bind_Ok _ _ _ _ _ (datetime_now_run env _)).
    eexists. split; [reflexivity|]. done.
  - rewrite (bind_Ok _ _ _ _ _ (bind_Ok _ _ _ _ _ (token_urlsafe_run env 16 _))).
    rewrite (bind_Ok _ _ _ _ _ (datetime_now_run env _)).
    eexists. split; [reflexivity|]. done.
Qed.

(** C5.  For every invocation of [generate_jwt_keys], and every decoder
    that inverts [jwt.encode] under the signing key: the two returned tokens
    are encoded with the one returned secret, which is made of 48 fresh
    random bytes, and decode with it to two claim sets that are equal except
    for [role] ("anon" and "service_role"): both carry the issuer "supabase",
    the same project reference (the one given, when one is given), the same
    issued-at time (the current Unix time) and an expiry of issued-at plus ten
    years of 365 days. *)
Theorem generate_jwt_keys_claims (env : Env)
    (jwt_decode : string → string → option Payload)
    (project_ref : option string) (w : World) :
  (∀ payload key, jwt_decode (jwt_encode env payload key) key = Some payload) →
  ∃ anon_key service_key secret_key w' anon service,
    generate_jwt_keys env project_ref w = (Ok (anon_key, service_key, secret_key), w')
    ∧ secret_key = urlsafe_text (map (urandom env (draws w)) (seq 0 48))
    ∧ anon_key = jwt_encode env anon secret_key
    ∧ service_key = jwt_encode env service secret_key
    ∧ jwt_decode anon_key secret_key = Some anon
    ∧ jwt_decode service_key secret_key = Some service
    ∧ role anon = "anon" ∧ role service = "service_role"
    ∧ service = mkPayload (iss anon) (ref anon) "service_role" (iat anon) (exp anon)
    ∧ iss anon = "supabase"
    ∧ ref anon = signed_ref env project_ref w
    ∧ (∀ r, project_ref = Some r → r ≠ "" → ref anon = r)
    ∧ iat anon = unix (clock env (ticks w))
    ∧ exp anon = iat anon + 10 * (365 * 24 * 60 * 60).
Proof.
  intros Hdecode.
  destruct (generate_jwt_keys_run env project_ref w) as (w' & Hrun & _).
  cbv zeta in Hrun.
  eexists _, _, _, w', _, _. split; [exact Hrun|].
  repeat split; try apply Hdecode; try done.
  intros r -> Hr. cbn [ref]. unfold signed_ref. by rewrite bool_decide_false.
Qed.

Lemma generate_jwt_keys_claims_witness :
  ∃ anon_key service_key secret_key w' anon service,
    generate_jwt_keys (Ideal.host Byte.x00) (Some "abcdefghij0123456789")
      (world_with_ports [])
    = (Ok (anon_key, service_key, secret_key), w')
    ∧ secret_key = urlsafe_text (map (λ _, Byte.x00) (seq 0 48))
    ∧ anon_key = Ideal.jwt_encode anon secret_key
    ∧ service_key = Ideal.jwt_encode service secret_key
    ∧ Ideal.jwt_decode anon_key secret_key = Some anon
    ∧ Ideal.jwt_decode service_key secret_key = Some service
    ∧ role anon = "anon" ∧ role service = "service_role"
    ∧ service = mkPayload (iss anon) (ref anon) "service_role" (iat anon) (exp anon)
    ∧ iss anon = "supabase"
    ∧ ref anon
      = signed_ref (Ideal.host Byte.x00) (Some "abcdefghij0123456789") (world_with_ports [])
    ∧ (∀ r, Some "abcdefghij0123456789" = Some r → r ≠ "" → ref anon = r)
    ∧ iat anon = 1700000000
    ∧ exp anon = iat anon + 10 * (365 * 24 * 60 * 60).
Proof.
  apply (generate_jwt_keys_claims (Ideal.host Byte.x00) Ideal.jwt_decode
           (Some "abcdefghij0123456789") (world_with_ports [])).
  intros payload key. apply Ideal_jwt_decode_encode.
Defined.

(** * The runtime bridge *)

Lemma subprocess_run_completed env cmd cwd w rc out err :
  run_process env (length (procs w)) cmd cwd = Completed rc out err →
  subprocess_run env cmd cwd w = (Ok (rc, out, err), set_procs (procs w ++ [(cmd, cwd)]) w).
Proof. intros H. unfold subprocess_run. by rewrite H. Qed.

Lemma subprocess_run_not_started env cmd cwd w e :
  run_process env (length (procs w)) cmd cwd = NotStarted e →
  subprocess_run env cmd cwd w = (Raise e, set_procs (procs w ++ [(cmd, cwd)]) w).
Proof. intros H. unfold subprocess_run. by rewrite H. Qed.

Lemma run_commands_cons env cwd cmd commands last :
  run_commands env cwd (cmd :: commands) last
  = bind
      (try_except
         (bind (subprocess_run env cmd cwd) (λ res,
            let '(returncode, stdout, stderr) := res in
            if bool_decide (returncode = 0)
            then ret (inl (0, stdout, stderr))
            else ret (inr (returncode, stdout, stderr))))
         (λ e, let '(_, last_out, _) := last in ret (inr (1, last_out, exn_str e))))
      (λ step,
         match step with
         | inl r => ret r
         | inr last' => run_commands env cwd commands last'
         end).
Proof. done. Qed.

(** One turn of the loop of [_run_compose], by the outcome of the command. *)
Lemma run_commands_step env cwd cmd commands last w :
  run_commands env cwd (cmd :: commands) last w
  = let w' := set_procs (procs w ++ [(cmd, cwd)]) w in
    match run_process env (length (procs w)) cmd cwd with
    | Completed rc out err =>
        if bool_decide (rc = 0) then (Ok (0, out, err), w')
        else run_commands env cwd commands (rc, out, err) w'
    | NotStarted e => run_commands env cwd commands (1, last.1.2, exn_str e) w'
    end.
Proof.
  rewrite run_commands_cons. unfold bind at 1, try_except, bind, subprocess_run.
  destruct last as [[last_rc last_out] last_err].
  destruct (run_process env (length (procs w)) cmd cwd) as [rc out err|e]; [|done].
  by case_bool_decide.
Qed.

Lemma _run_compose_both env cwd args w :
  which env "docker" = true → which env "docker-compose" = true →
  _run_compose env cwd args w
  = run_commands env cwd
      [["docker"; "compose"] ++ args; ["docker-compose"] ++ args] (1, "", "") w.
Proof.
  intros Hd Hdc. unfold _run_compose, shutil_which, bind, ret. by rewrite Hd, Hdc.
Qed.

(** C7 (as amended).  When both dialects are installed and the primary one
    runs and exits non-zero, [_run_compose] goes on to run the legacy
    dialect, and the legacy outcome decides the result: the legacy result
    (exit code, stdout, stderr) when the legacy command runs, whether it
    exits zero or not; and exit code 1 with the stdout of the primary run and
    the text of the exception when the legacy command fails to execute. *)
Theorem run_compose_falls_back (env : Env) (cwd : string) (args : list string)
    (w : World) (rc : Z) (out err : string) :
  which env "docker" = true →
  which env "docker-compose" = true →
  run_process env (length (procs w)) ("docker" :: "compose" :: args) cwd
  = Completed rc out err →
  rc ≠ 0 →
  _run_compose env cwd args w
  = (Ok match run_process env (S (length (procs w))) ("docker-compose" :: args) cwd with
        | Completed rc' out' err' => (rc', out', err')
        | NotStarted e => (1, out, exn_str e)
        end,
     set_procs (procs w ++ [("docker" :: "compose" :: args, cwd);
                            ("docker-compose" :: args, cwd)]) w).
Proof.
  intros Hd Hdc Hprimary Hrc.
  rewrite _run_compose_both by done.
  rewrite run_commands_step. cbv zeta. cbn [app]. rewrite Hprimary.
  rewrite bool_decide_false by done.
  rewrite run_commands_step. cbv zeta. cbn [procs set_procs].
  rewrite length_app. cbn [length]. rewrite Nat.add_1_r.
  assert (∀ l (a b : invocation), (l ++ [a]) ++ [b] = l ++ [a; b]) as Happ
    by (intros; by rewrite <- app_assoc).
  destruct (run_process env (S (length (procs w))) ("docker-compose" :: args) cwd)
    as [rc' out' err'|e].
  - case_bool_decide as Hz.
    + subst rc'. unfold set_procs. cbn. by rewrite Happ.
    + cbn. unfold set_procs. cbn. by rewrite Happ.
  - cbn. unfold set_procs. cbn. by rewrite Happ.
Qed.

Lemma run_compose_falls_back_witness :
  _run_compose (Ideal.host_running primary_fails) "/root/supabase_projects/alpha"
    ["up"; "-d"] (world_with_ports [])
  = (Ok (0, "Container started", ""),
     set_procs [(["docker"; "compose"; "up"; "-d"], "/root/supabase_projects/alpha");
                (["docker-compose"; "up"; "-d"], "/root/supabase_projects/alpha")]
       (world_with_ports [])).
Proof.
  apply (run_compose_falls_back (Ideal.host_running primary_fails)
           "/root/supabase_projects/alpha" ["up"; "-d"] (world_with_ports [])
           1 "" "unknown command: docker compose");
    [reflexivity | reflexivity | reflexivity | lia].
Defined.

(** C7, counterexample.  Both dialects are installed; the primary one runs
    and exits with code 1 and the message on stderr; the result of
    [_run_compose] is the legacy dialect's (0, stdout, stderr): the primary's
    non-zero result is masked. *)
Lemma run_compose_masks_primary :
  run_process (Ideal.host_running primary_fails) 0 ["docker"; "compose"; "up"; "-d"]
    "/root/supabase_projects/alpha"
  = Completed 1 "" "unknown command: docker compose"
  ∧ ∃ w', _run_compose (Ideal.host_running primary_fails)
            "/root/supabase_projects/alpha" ["up"; "-d"] (world_with_ports [])
          = (Ok (0, "Container started", ""), w').
Proof. split; [done|]. eexists. vm_compute. reflexivity. Qed.

(** * Paths *)

Lemma path_join_relative a b :
  String.prefix "/" b = false → path_join a b = a +:+ sep_of a +:+ b.
Proof.
  intros Hb. unfold path_join, sep_of. rewrite Hb.
  by destruct (bool_decide (a = "") || PyStr.endswith a "/").
Qed.

Lemma path_join_inj a b1 b2 :
  String.prefix "/" b1 = false → String.prefix "/" b2 = false →
  path_join a b1 = path_join a b2 → b1 = b2.
Proof.
  intros H1 H2. rewrite !path_join_relative by done.
  intros Heq. by do 2 apply String.app_inj in Heq.
Qed.

Lemma config_path_not_compose d :
  path_join d "supabase_config.json" ≠ path_join d "docker-compose.yml".
Proof. intros H. by apply path_join_inj in H. Qed.

Lemma config_path_not_kong d :
  path_join d "supabase_config.json" ≠ path_join d "kong.yml".
Proof. intros H. by apply path_join_inj in H. Qed.

Lemma compose_path_not_kong d :
  path_join d "docker-compose.yml" ≠ path_join d "kong.yml".
Proof. intros H. by apply path_join_inj in H. Qed.

(** * Frame: where a computation writes *)

Create HintDb frame discriminated.

Section Frame.

Context (P : string → Prop).

Lemma writes_within_ret {A} (a : A) : writes_within P (ret a).
Proof. intros w r w' [= <- <-] p _. done. Qed.

Lemma writes_within_raise {A} e : writes_within P (@raise A e).
Proof. intros w r w' [= <- <-] p _. done. Qed.

Lemma writes_within_lift {A} (x : result A) : writes_within P (lift x).
Proof. intros w r w' [= <- <-] p _. done. Qed.

Lemma writes_within_bind {A B} (m : M A) (k : A → M B) :
  writes_within P m → (∀ a, writes_within P (k a)) → writes_within P (bind m k).
Proof.
  intros Hm Hk w r w' Hrun p Hp. unfold bind in Hrun.
  destruct (m w) as [[a|e] w1] eqn:Hmw.
  - rewrite (Hk a _ _ _ Hrun p Hp). by apply (Hm _ _ _ Hmw).
  - injection Hrun as <- <-. by apply (Hm _ _ _ Hmw).
Qed.

Lemma writes_within_try_except {A} (m : M A) (h : exn → M A) :
  writes_within P m → (∀ e, writes_within P (h e)) → writes_within P (try_except m h).
Proof.
  intros Hm Hh w r w' Hrun p Hp. unfold try_except in Hrun.
  destruct (m w) as [[a|e] w1] eqn:Hmw.
  - injection Hrun as <- <-. by apply (Hm _ _ _ Hmw).
  - rewrite (Hh e _ _ _ Hrun p Hp). by apply (Hm _ _ _ Hmw).
Qed.

Lemma writes_within_try_except_OSError {A} (m h : M A) :
  writes_within P m → writes_within P h → writes_within P (try_except_OSError m h).
Proof.
  intros Hm Hh w r w' Hrun p Hp. unfold try_except_OSError in Hrun.
  destruct (m w) as [[a|e] w1] eqn:Hmw.
  - injection Hrun as <- <-. by apply (Hm _ _ _ Hmw).
  - destruct (is_OSError e).
    + rewrite (Hh _ _ _ Hrun p Hp). by apply (Hm _ _ _ Hmw).
    + injection Hrun as <- <-. by apply (Hm _ _ _ Hmw).
Qed.

(** A computation that leaves the file system as it is. *)
Lemma writes_within_pure {A} (m : M A) :
  (∀ w, fs (m w).2 = fs w) → writes_within P m.
Proof. intros H w r w' Hrun p _. specialize (H w). rewrite Hrun in H. cbn in H. by rewrite H. Qed.

Lemma writes_within_write_text p text : P p → writes_within P (write_text p text).
Proof.
  intros HP w r w' Hrun q Hq. unfold write_text in Hrun.
  assert (q ≠ p) by (by intros ->).
  destruct (fs w !! p) as [[|?]|]; injection Hrun as <- <-; cbn;
    by rewrite ?lookup_insert_ne.
Qed.

Lemma writes_within_os_makedirs p : P p → writes_within P (os_makedirs p).
Proof.
  intros HP w r w' Hrun q Hq. unfold os_makedirs in Hrun.
  assert (q ≠ p) by (by intros ->).
  destruct (fs w !! p) as [[|?]|]; injection Hrun as <- <-; cbn;
    by rewrite ?lookup_insert_ne.
Qed.

Lemma writes_within_shutil_rmtree d :
  (∀ p, inside d p = true → P p) → writes_within P (shutil_rmtree d).
Proof.
  intros HP w r w' Hrun q Hq. unfold shutil_rmtree in Hrun.
  destruct (fs w !! d) as [[|?]|]; injection Hrun as <- <-; cbn; try done.
  destruct (fs w !! q) as [x|] eqn:Hlook.
  - apply map_lookup_filter_Some. split; [done|]. cbn.
    destruct (inside d q) eqn:Hin; [|done]. by destruct Hq; apply HP.
  - apply map_lookup_filter_None. by left.
Qed.

Lemma writes_within_for_each {A} (l : list A) (body : A → M unit) :
  (∀ x, writes_within P (body x)) → writes_within P (for_each l body).
Proof.
  intros Hbody. induction l as [|x l IH]; cbn [for_each].
  - apply writes_within_ret.
  - apply writes_within_bind; [done | by intros _].
Qed.

End Frame.

#[global] Hint Resolve writes_within_ret writes_within_raise writes_within_lift
  writes_within_write_text writes_within_os_makedirs : frame.

(** Splits a goal [writes_within P m] along the structure of [m]. *)
Ltac frame_step :=
  lazymatch goal with
  | |- writes_within _ (bind _ _) => apply writes_within_bind; [|intros ?]
  | |- writes_within _ (try_except _ _) => apply writes_within_try_except; [|intros ?]
  | |- writes_within _ (try_except_OSError _ _) => apply writes_within_try_except_OSError
  | |- writes_within _ (for_each _ _) => apply writes_within_for_each; intros ?
  | |- writes_within _ (if ?b then _ else _) => destruct b
  | |- writes_within _ (match ?x with _ => _ end) => destruct x
  | |- writes_within _ (_ ?x) =>
      first [ solve [auto with frame]
            | apply writes_within_pure; intros ?; reflexivity ]
  | |- writes_within _ _ =>
      first [ solve [auto with frame]
            | apply writes_within_pure; intros ?; reflexivity ]
  end.
Ltac frame := repeat frame_step.

Section FrameOfMethods.

Context (P : string → Prop) (env : Env).

Lemma writes_within_read_text p : writes_within P (read_text p).
Proof.
  apply writes_within_pure. intros w. unfold read_text.
  by destruct (fs w !! p) as [[|?]|].
Qed.

Lemma writes_within_subprocess_run cmd cwd :
  writes_within P (subprocess_run env cmd cwd).
Proof.
  apply writes_within_pure. intros w. unfold subprocess_run.
  by destruct (run_process env (length (procs w)) cmd cwd).
Qed.

Lemma writes_within_sock_bind port : writes_within P (sock_bind port).
Proof.
  apply writes_within_pure. intros w. unfold sock_bind.
  by repeat case_bool_decide.
Qed.

Lemma writes_within_check_port_availability port :
  writes_within P (check_port_availability port).
Proof.
  unfold check_port_availability.
  apply writes_within_try_except_OSError; [|apply writes_within_ret].
  apply writes_within_bind; [apply writes_within_sock_bind|]. intros _.
  apply writes_within_bind; [|intros _; apply writes_within_ret].
  by apply writes_within_pure.
Qed.

Lemma writes_within_probe fuel service base_port port :
  writes_within P (probe fuel service base_port port).
Proof.
  revert port. induction fuel as [|fuel IH]; intros port; rewrite probe_unfold;
    (apply writes_within_bind; [apply writes_within_check_port_availability|]);
    intros [|]; try apply writes_within_ret;
    case_bool_decide; try apply writes_within_raise.
  apply IH.
Qed.

Lemma writes_within_allocate (items acc : dict) : writes_within P (allocate items acc).
Proof.
  revert acc. induction items as [|[service base_port] items IH]; intros acc.
  - apply writes_within_ret.
  - rewrite allocate_cons. apply writes_within_bind; [apply writes_within_probe|].
    intros port. apply IH.
Qed.

Lemma writes_within_find_available_ports (base_ports : dict) :
  writes_within P (find_available_ports base_ports).
Proof. apply writes_within_allocate. Qed.

Lemma writes_within_generate_jwt_keys project_ref :
  writes_within P (generate_jwt_keys env project_ref).
Proof.
  apply writes_within_pure. intros w.
  destruct (generate_jwt_keys_run env project_ref w) as (w' & -> & Hfs & _). done.
Qed.

Lemma writes_within_run_commands cwd commands last :
  writes_within P (run_commands env cwd commands last).
Proof.
  revert last. induction commands as [|cmd commands IH]; intros last.
  - apply writes_within_ret.
  - rewrite run_commands_cons. apply writes_within_bind.
    + apply writes_within_try_except.
      * apply writes_within_bind; [apply writes_within_subprocess_run|].
        intros [[rc out] err]. case_bool_decide; apply writes_within_ret.
      * intros e. destruct last as [[? ?] ?]. apply writes_within_ret.
    + intros [r|last']; [apply writes_within_ret | apply IH].
Qed.

Lemma writes_within__run_compose cwd args : writes_within P (_run_compose env cwd args).
Proof.
  unfold _run_compose, shutil_which.
  apply writes_within_bind; [apply writes_within_ret|]. intros docker.
  apply writes_within_bind; [apply writes_within_ret|]. intros docker_compose.
  destruct docker, docker_compose; cbn [app];
    first [apply writes_within_run_commands | apply writes_within_ret].
Qed.

Lemma writes_within_dict_subscript (d : dict) k : writes_within P (dict_subscript d k).
Proof.
  unfold dict_subscript.
  destruct (dict_get d k); [apply writes_within_ret | apply writes_within_raise].
Qed.

Lemma writes_within_json_load p : writes_within P (json_load env p).
Proof.
  unfold json_load. apply writes_within_bind; [apply writes_within_read_text|].
  intros text. apply writes_within_lift.
Qed.

Lemma writes_within_service_status (items : dict) :
  writes_within P (service_status items).
Proof.
  induction items as [|[svc port] items IH]; cbn [service_status].
  - apply writes_within_ret.
  - apply writes_within_bind; [by apply writes_within_pure|]. intros up.
    apply writes_within_bind; [done|]. intros rest. apply writes_within_ret.
Qed.

End FrameOfMethods.

#[global] Hint Resolve writes_within_read_text writes_within_subprocess_run
  writes_within_sock_bind writes_within_check_port_availability
  writes_within_probe writes_within_allocate writes_within_find_available_ports
  writes_within_generate_jwt_keys writes_within_run_commands
  writes_within__run_compose writes_within_dict_subscript writes_within_json_load
  writes_within_service_status : frame.

(** [start_project] writes only the topology file of the project. *)
Lemma writes_within_start_project env project_name :
  writes_within
    (λ p, p = path_join (path_join (projects_dir env) project_name) "docker-compose.yml")
    (start_project env project_name).
Proof. unfold start_project. frame. Qed.

(** [stop_project] and the two status operations write nothing. *)
Lemma writes_within_stop_project P env project_name :
  writes_within P (stop_project env project_name).
Proof. unfold stop_project. frame. Qed.

Lemma writes_within_project_status_api P env project_name :
  writes_within P (project_status_api env project_name).
Proof. unfold project_status_api. frame. Qed.

Lemma writes_within__check_project_status P env project_name :
  writes_within P (_check_project_status env project_name).
Proof. unfold _check_project_status. frame. Qed.

#[global] Hint Resolve writes_within__check_project_status writes_within_stop_project : frame.

Lemma writes_within_status_project P env name :
  writes_within P (status_project env name).
Proof. unfold status_project, print_error. frame. Qed.

(** [create_docker_compose] writes the topology file and the routing file. *)
Lemma writes_within_create_docker_compose project_path project_name config :
  writes_within
    (λ p, p = path_join project_path "docker-compose.yml"
          ∨ p = path_join project_path "kong.yml")
    (create_docker_compose project_path project_name config).
Proof. unfold create_docker_compose, create_kong_config. frame; auto with frame. Qed.

(** * Running the primitives *)

Lemma log_run env message level w :
  log env message level w = (Ok tt, logged env message level w).
Proof. done. Qed.

Lemma clear_logs_run w : clear_logs w = (Ok tt, set_logs [] w).
Proof. done. Qed.

Lemma print_run line w : print line w = (Ok tt, set_console (console w ++ [line]) w).
Proof. done. Qed.

Lemma os_path_exists_run p w :
  os_path_exists p w = (Ok (bool_decide (is_Some (fs w !! p))), w).
Proof. done. Qed.

Lemma get_machine_ip_run env w :
  get_machine_ip env w = (Ok (default "127.0.0.1" (local_ip env)), w).
Proof. done. Qed.

Lemma ret_run {A} (a : A) w : ret a w = (Ok a, w).
Proof. done. Qed.

Lemma os_makedirs_fresh p w :
  fs w !! p = None → os_makedirs p w = (Ok tt, set_fs (<[p := Dir]> (fs w)) w).
Proof. intros H. unfold os_makedirs. by rewrite H. Qed.

Lemma write_text_run p text w :
  fs w !! p ≠ Some Dir →
  write_text p text w = (Ok tt, set_fs (<[p := File text]> (fs w)) w).
Proof. intros H. unfold write_text. by destruct (fs w !! p) as [[|?]|]. Qed.

Lemma write_text_inv p text w r w' :
  write_text p text w = (Ok r, w') → w' = set_fs (<[p := File text]> (fs w)) w.
Proof. unfold write_text. destruct (fs w !! p) as [[|?]|]; by intros [= <- <-]. Qed.

(** One step of a run, for the steps that never raise. *)
Ltac run_step :=
  first
    [ rewrite (bind_Ok _ _ _ _ _ (log_run _ _ _ _))
    | rewrite (bind_Ok _ _ _ _ _ (clear_logs_run _))
    | rewrite (bind_Ok _ _ _ _ _ (print_run _ _))
    | rewrite (bind_Ok _ _ _ _ _ (os_path_exists_run _ _))
    | rewrite (bind_Ok _ _ _ _ _ (get_machine_ip_run _ _))
    | rewrite (bind_Ok _ _ _ _ _ (token_urlsafe_run _ _ _))
    | rewrite (bind_Ok _ _ _ _ _ (datetime_now_run _ _))
    | rewrite (bind_Ok _ _ _ _ _ (ret_run _ _)) ].

(** * Totality of start, stop and delete *)

Lemma never_raises_try_except {A} (m : M A) (h : exn → M A) :
  (∀ e, never_raises (h e)) → never_raises (try_except m h).
Proof.
  intros Hh w. unfold try_except. destruct (m w) as [[a|e] w1]; [eauto|]. apply Hh.
Qed.

Lemma never_raises_report {A} (line : string) (a : A) :
  never_raises (bind (print line) (λ _, ret a)).
Proof. intros w. by eexists _, _. Qed.

Lemma never_raises_start_project env project_name :
  never_raises (start_project env project_name).
Proof. apply never_raises_try_except. intros e. apply never_raises_report. Qed.

Lemma never_raises_stop_project env project_name :
  never_raises (stop_project env project_name).
Proof. apply never_raises_try_except. intros e. apply never_raises_report. Qed.

Lemma never_raises_delete_project env project_name :
  never_raises (delete_project env project_name).
Proof. apply never_raises_try_except. intros e. apply never_raises_report. Qed.

Lemma start_project_missing env project_name w :
  fs w !! path_join (projects_dir env) project_name = None →
  start_project env project_name w = (Ok (path_not_found env project_name), w).
Proof.
  intros H. unfold start_project, try_except. run_step.
  rewrite H. by rewrite bool_decide_false by (by intros [? ?]).
Qed.

Lemma stop_project_missing env project_name w :
  fs w !! path_join (projects_dir env) project_name = None →
  stop_project env project_name w = (Ok (path_not_found env project_name), w).
Proof.
  intros H. unfold stop_project, try_except. run_step.
  rewrite H. by rewrite bool_decide_false by (by intros [? ?]).
Qed.

Lemma delete_project_missing env project_name w :
  fs w !! path_join (projects_dir env) project_name = None →
  delete_project env project_name w = (Ok (path_not_found env project_name), w).
Proof.
  intros H. unfold delete_project, try_except. run_step.
  rewrite H. by rewrite bool_decide_false by (by intros [? ?]).
Qed.

(** * Validation in create *)

Lemma create_project_taken env project_name machine_size specs
    db_host db_port db_user db_password w :
  is_Some (fs w !! path_join (projects_dir env) project_name) →
  create_project env project_name machine_size specs db_host db_port db_user db_password w
  = (Raise (Exn ValueError
              ("Project '" +:+ project_name
               +:+ "' already exists. Please choose a different name.")),
     refused_duplicate env project_name w).
Proof.
  intros H. unfold create_project. do 4 run_step.
  cbn [fs logged set_console set_logs set_ticks].
  rewrite bool_decide_true by done. by run_step.
Qed.

Lemma create_project_invalid_size env project_name machine_size specs
    db_host db_port db_user db_password w :
  fs w !! path_join (projects_dir env) project_name = None →
  machine_size ∉ ["small"; "medium"; "large"; "xlarge"] →
  ∃ w',
    create_project env project_name machine_size specs db_host db_port db_user db_password w
    = (Raise (Exn ValueError
                "Invalid machine size. Choose from: small, medium, large, xlarge"), w')
    ∧ fs w' = fs w ∧ ports_in_use w' = ports_in_use w ∧ procs w' = procs w.
Proof.
  intros H Hsize. unfold create_project. do 4 run_step.
  cbn [fs logged set_console set_logs set_ticks]. rewrite H.
  rewrite bool_decide_false by (by intros [? ?]).
  run_step. rewrite bool_decide_false by done. cbn [negb]. run_step.
  eexists. split; [reflexivity|]. done.
Qed.

(** C2.  For every project name whose directory already exists, and
    whatever the other arguments, [create_project] raises the [ValueError]
    of the duplicate name; the call leaves the file system as it was (no
    directory, configuration or topology file is made or changed), binds no
    port, runs no subprocess and draws no random token.  All it does before
    raising is to clear the log buffer and to log three lines. *)
Theorem create_project_duplicate (env : Env)
    (project_name machine_size specs db_host db_port db_user db_password : string)
    (w : World) :
  is_Some (fs w !! path_join (projects_dir env) project_name) →
  ∃ w',
    create_project env project_name machine_size specs db_host db_port db_user db_password w
    = (Raise (Exn ValueError
                ("Project '" +:+ project_name
                 +:+ "' already exists. Please choose a different name.")), w')
    ∧ w' = refused_duplicate env project_name w
    ∧ fs w' = fs w
    ∧ ports_in_use w' = ports_in_use w
    ∧ procs w' = procs w
    ∧ draws w' = draws w.
Proof.
  intros H. exists (refused_duplicate env project_name w).
  split; [by apply create_project_taken|]. done.
Qed.

(** C10.  For every project name and every state of the world,
    [start_project], [stop_project] and [delete_project] return a triple
    (success, stdout, stderr) and raise nothing.  When the directory of the
    project is missing, each returns failure with the message that the
    project path was not found and leaves the world as it is: no subprocess
    is run.  [create_project], by contrast, raises [ValueError] for a name
    that is taken and for a machine size that is not one of the four. *)
Theorem lifecycle_total (env : Env) (project_name : string) (w : World) :
  (∃ t w', start_project env project_name w = (Ok t, w'))
  ∧ (∃ t w', stop_project env project_name w = (Ok t, w'))
  ∧ (∃ t w', delete_project env project_name w = (Ok t, w'))
  ∧ (fs w !! path_join (projects_dir env) project_name = None →
     start_project env project_name w = (Ok (path_not_found env project_name), w)
     ∧ stop_project env project_name w = (Ok (path_not_found env project_name), w)
     ∧ delete_project env project_name w = (Ok (path_not_found env project_name), w))
  ∧ (∀ machine_size specs db_host db_port db_user db_password,
       is_Some (fs w !! path_join (projects_dir env) project_name)
       ∨ machine_size ∉ ["small"; "medium"; "large"; "xlarge"] →
       ∃ msg w',
         create_project env project_name machine_size specs
           db_host db_port db_user db_password w
         = (Raise (Exn ValueError msg), w')).
Proof.
  split; [apply never_raises_start_project|].
  split; [apply never_raises_stop_project|].
  split; [apply never_raises_delete_project|].
  split.
  - intros H. split; [by apply start_project_missing|].
    split; [by apply stop_project_missing | by apply delete_project_missing].
  - intros machine_size specs db_host db_port db_user db_password Hbad.
    destruct (fs w !! path_join (projects_dir env) project_name) as [n|] eqn:Hpath.
    + eexists _, _. apply create_project_taken. rewrite Hpath. eauto.
    + destruct Hbad as [[? [=]]|Hsize].
      destruct (create_project_invalid_size env project_name machine_size specs
                  db_host db_port db_user db_password w Hpath Hsize) as (w' & Hrun & _).
      eauto.
Qed.

(** On a world with no project at all, the three operations answer that the
    path was not found, and the trace of subprocesses stays empty. *)
Example lifecycle_missing_project :
  start_project (Ideal.host Byte.x00) "ghost" (world_with_ports [])
  = (Ok (false, "", "Project path not found: /root/supabase_projects/ghost"),
     world_with_ports [])
  ∧ stop_project (Ideal.host Byte.x00) "ghost" (world_with_ports [])
    = (Ok (false, "", "Project path not found: /root/supabase_projects/ghost"),
       world_with_ports [])
  ∧ delete_project (Ideal.host Byte.x00) "ghost" (world_with_ports [])
    = (Ok (false, "", "Project path not found: /root/supabase_projects/ghost"),
       world_with_ports [])
  ∧ procs (world_with_ports []) = [].
Proof. by vm_compute. Qed.

(** * The topology writer *)

Lemma set_fs_id w : set_fs (fs w) w = w.
Proof. by destruct w. Qed.

Lemma lift_inv_Ok {A} (x : result A) w a w' : lift x w = (Ok a, w') → x = Ok a ∧ w' = w.
Proof. by intros [= -> <-]. Qed.

(** A successful [create_docker_compose] writes the value of the f-string
    to the topology file and the routing text to [kong.yml], and nothing
    else. *)
Lemma create_docker_compose_inv project_path project_name config w r w' :
  create_docker_compose project_path project_name config w = (Ok r, w') →
  ∃ topology,
    docker_compose_content project_name config = Ok topology
    ∧ w' = set_fs (<[path_join project_path "kong.yml" := File kong_content]>
                     (<[path_join project_path "docker-compose.yml" := File topology]>
                        (fs w))) w.
Proof.
  unfold create_docker_compose, create_kong_config. intros Hrun.
  apply bind_inv_Ok in Hrun as (topology & w1 & Hlift & Hrun).
  apply lift_inv_Ok in Hlift as [Htext ->].
  apply bind_inv_Ok in Hrun as ([] & w2 & Hcompose & Hkong).
  apply write_text_inv in Hcompose as ->. apply write_text_inv in Hkong as ->.
  by exists topology.
Qed.

(** Writing a file again with the text it has changes nothing. *)
Lemma write_text_same p text w :
  fs w !! p = Some (File text) → write_text p text w = (Ok tt, w).
Proof.
  intros H. rewrite write_text_run by (by rewrite H).
  by rewrite insert_id, set_fs_id.
Qed.

(** C8.  The two generated files are a function of the arguments of
    [create_docker_compose] alone, which takes nothing from the host: two
    successful runs with the same project path, project name and
    configuration, from any two states of the world, leave the same text in
    [docker-compose.yml], the value of the f-string, and the same text in
    [kong.yml]; and running it again on its own result changes nothing. *)
Theorem create_docker_compose_deterministic
    (project_path project_name : string) (config : Config) (w1 w2 w1' w2' : World) :
  create_docker_compose project_path project_name config w1 = (Ok tt, w1') →
  create_docker_compose project_path project_name config w2 = (Ok tt, w2') →
  ∃ topology,
    docker_compose_content project_name config = Ok topology
    ∧ fs w1' !! path_join project_path "docker-compose.yml" = Some (File topology)
    ∧ fs w2' !! path_join project_path "docker-compose.yml" = Some (File topology)
    ∧ fs w1' !! path_join project_path "kong.yml" = Some (File kong_content)
    ∧ fs w2' !! path_join project_path "kong.yml" = Some (File kong_content)
    ∧ create_docker_compose project_path project_name config w1' = (Ok tt, w1').
Proof.
  intros H1 H2.
  apply create_docker_compose_inv in H1 as (topology & Htext & ->).
  apply create_docker_compose_inv in H2 as (topology' & Htext' & ->).
  assert (topology' = topology) as -> by congruence.
  pose proof (compose_path_not_kong project_path) as Hne.
  assert (∀ f : gmap string node,
            <[path_join project_path "kong.yml" := File kong_content]>
              (<[path_join project_path "docker-compose.yml" := File topology]> f)
            !! path_join project_path "docker-compose.yml" = Some (File topology))
    as Hcompose by (intros f; by rewrite lookup_insert_ne, lookup_insert_eq).
  exists topology. cbn [fs set_fs]. rewrite !Hcompose, !lookup_insert_eq.
  do 5 (split; [done|]).
  unfold create_docker_compose, create_kong_config.
  erewrite bind_Ok; last by (unfold lift; rewrite Htext).
  cbv beta zeta. erewrite bind_Ok; last first.
  { apply write_text_same. cbn [fs set_fs].
    by rewrite lookup_insert_ne, lookup_insert_eq. }
  apply write_text_same. cbn [fs set_fs]. by rewrite lookup_insert_eq.
Qed.

Lemma create_docker_compose_deterministic_witness :
  ∃ topology,
    docker_compose_content "alpha" alpha_config = Ok topology
    ∧ fs (create_docker_compose "/root/supabase_projects/alpha" "alpha" alpha_config
            (world_with_ports [])).2
        !! path_join "/root/supabase_projects/alpha" "docker-compose.yml"
      = Some (File topology)
    ∧ fs (create_docker_compose "/root/supabase_projects/alpha" "alpha" alpha_config
            old_project).2
        !! path_join "/root/supabase_projects/alpha" "docker-compose.yml"
      = Some (File topology)
    ∧ fs (create_docker_compose "/root/supabase_projects/alpha" "alpha" alpha_config
            (world_with_ports [])).2
        !! path_join "/root/supabase_projects/alpha" "kong.yml"
      = Some (File kong_content)
    ∧ fs (create_docker_compose "/root/supabase_projects/alpha" "alpha" alpha_config
            old_project).2
        !! path_join "/root/supabase_projects/alpha" "kong.yml"
      = Some (File kong_content)
    ∧ create_docker_compose "/root/supabase_projects/alpha" "alpha" alpha_config
        (create_docker_compose "/root/supabase_projects/alpha" "alpha" alpha_config
           (world_with_ports [])).2
      = (Ok tt,
         (create_docker_compose "/root/supabase_projects/alpha" "alpha" alpha_config
            (world_with_ports [])).2).
Proof.
  apply (create_docker_compose_deterministic "/root/supabase_projects/alpha" "alpha"
           alpha_config (world_with_ports []) old_project);
    vm_compute; reflexivity.
Defined.

(** * A successful create *)

Lemma post_bind {A B} (m : M A) (k : A → M B) w (Q : B → World → Prop) :
  (∀ a w1, m w = (Ok a, w1) → post (k a w1) Q) → post (bind m k w) Q.
Proof.
  intros H. unfold bind. destruct (m w) as [[a|e] w1]; [by apply H | exact I].
Qed.

Lemma try_except_inv_Ok {A} (m : M A) (h : exn → M A) w a w' :
  try_except m h w = (Ok a, w') →
  m w = (Ok a, w') ∨ ∃ e w1, m w = (Raise e, w1) ∧ h e w1 = (Ok a, w').
Proof.
  unfold try_except. destruct (m w) as [[a'|e] w1]; [by left | right; eauto].
Qed.

Lemma dict_subscript_inv (d : dict) k w v w' :
  dict_subscript d k w = (Ok v, w') → dict_get d k = Some v ∧ w' = w.
Proof.
  unfold dict_subscript. destruct (dict_get d k); [by intros [= -> <-] | done].
Qed.

(** The map that [allocate] returns has the services of its input, in
    their order. *)
Lemma allocate_keys (items acc : dict) w r w' :
  allocate items acc w = (Ok r, w') →
  NoDup (acc.*1 ++ items.*1) →
  r.*1 = acc.*1 ++ items.*1.
Proof.
  revert acc w. induction items as [|[service base_port] items IH]; intros acc w Hrun Hnd.
  - injection Hrun as <- <-. by rewrite app_nil_r.
  - rewrite allocate_cons in Hrun.
    apply bind_inv_Ok in Hrun as (port & w1 & _ & Hrun).
    rewrite fmap_cons in Hnd. cbn [fst] in Hnd.
    assert (service ∉ acc.*1) as Hfresh.
    { intros Hin. apply NoDup_app in Hnd as (_ & Hdisj & _).
      apply (Hdisj service Hin). by left. }
    rewrite dict_set_fresh in Hrun by done.
    apply IH in Hrun.
    + rewrite Hrun, fmap_app, fmap_cons. cbn. by rewrite <- app_assoc.
    + rewrite fmap_app. cbn. by rewrite <- app_assoc.
Qed.

Lemma find_available_ports_keys (base_ports : dict) w r w' :
  find_available_ports base_ports w = (Ok r, w') →
  NoDup base_ports.*1 → r.*1 = base_ports.*1.
Proof. intros Hrun Hnd. by apply (allocate_keys base_ports [] w r w'). Qed.

(** What a successful [create_project] leaves: the configuration file of
    the project holds the JSON text of a configuration with the given name
    and size and with a port for each service of [base_ports]. *)
Lemma create_project_post env name size specs
    db_host db_port db_user db_password w :
  post (create_project env name size specs db_host db_port db_user db_password w)
    (λ path w',
       path = path_join (projects_dir env) name
       ∧ ∃ config,
           fs w' !! path_join path "supabase_config.json"
           = Some (File (json_dumps env config))
           ∧ project_name config = name
           ∧ machine_size config = size
           ∧ (ports config).*1 = base_ports.*1).
Proof.
  unfold create_project. do 4 run_step.
  destruct (bool_decide _) eqn:Htaken.
  { run_step. exact I. }
  run_step.
  destruct (negb (bool_decide _)) eqn:Hsize.
  { run_step. exact I. }
  do 3 run_step.
  apply post_bind; intros [] w1 _.
  do 2 run_step.
  apply post_bind; intros [[anon_key service_key] jwt_secret] w2 _.
  do 6 run_step.
  apply post_bind; intros available_ports w3 Hports.
  apply try_except_inv_Ok in Hports as [Hports|(e & w0 & _ & Hh)]; last first.
  { rewrite (bind_Ok _ _ _ _ _ (log_run _ _ _ _)) in Hh. discriminate Hh. }
  apply bind_inv_Ok in Hports as (found & wa & Hfind & Hports).
  apply bind_inv_Ok in Hports as ([] & wb & _ & Hports).
  apply bind_inv_Ok in Hports as ([] & wc & _ & Hports).
  injection Hports as -> ->.
  apply find_available_ports_keys in Hfind;
    [|by apply (bool_decide_unpack _); vm_compute].
  do 3 run_step.
  apply post_bind; intros [] w4 Hwrite. apply write_text_inv in Hwrite as ->.
  run_step.
  apply post_bind; intros [] w5 Hcompose.
  do 2 run_step.
  apply post_bind; intros started w6 Hstart.
  unfold truth_of_triple. do 2 run_step.
  apply post_bind; intros studio_port w7 [_ ->]%dict_subscript_inv.
  run_step.
  apply post_bind; intros kong_port w8 [_ ->]%dict_subscript_inv.
  do 2 run_step.
  cbn [post ret]. split; [done|].
  eexists. split.
  - cbn [fs logged set_console set_logs set_ticks].
    rewrite (writes_within_start_project env name _ _ _ Hstart)
      by apply config_path_not_compose.
    cbn [fs logged set_console set_logs set_ticks].
    rewrite (writes_within_create_docker_compose _ _ _ _ _ _ Hcompose); last first.
    { intros [H|H]; [by apply config_path_not_compose in H
                    | by apply config_path_not_kong in H]. }
    cbn [fs logged set_console set_logs set_ticks set_fs].
    by rewrite lookup_insert_eq.
  - by cbn.
Qed.

(** C4 (as amended).  For every successful [create_project], the
    configuration file of the project holds the JSON text of a configuration
    whose [ports] mapping has exactly 10 entries, one for each of the
    services studio, kong, auth, rest, realtime, storage, meta, functions,
    analytics and vector, in this order; the service names are distinct. *)
Theorem create_project_persists_ports (env : Env)
    (project_name machine_size specs db_host db_port db_user db_password : string)
    (w : World) (path : string) (w' : World) :
  create_project env project_name machine_size specs db_host db_port db_user db_password w
  = (Ok path, w') →
  path = path_join (projects_dir env) project_name
  ∧ ∃ config,
      fs w' !! path_join path "supabase_config.json"
      = Some (File (json_dumps env config))
      ∧ (ports config).*1
        = ["studio"; "kong"; "auth"; "rest"; "realtime"; "storage"; "meta";
           "functions"; "analytics"; "vector"]
      ∧ length (ports config) = 10%nat
      ∧ NoDup (ports config).*1.
Proof.
  intros Hrun.
  pose proof (create_project_post env project_name machine_size specs
                db_host db_port db_user db_password w) as Hpost.
  rewrite Hrun in Hpost. destruct Hpost as (-> & config & Hfile & _ & _ & Hkeys).
  split; [done|]. exists config. split; [done|]. split; [exact Hkeys|].
  split.
  - rewrite <- (length_fmap fst), Hkeys. done.
  - rewrite Hkeys. apply (bool_decide_unpack _). by vm_compute.
Qed.

(** A create that succeeds: on the small host, from a world with no project
    and no port in use. *)
Lemma alpha_created :
  ∃ w', create_project Ideal.small_host "alpha" "small" "2CPU/4GB RAM"
          "192.168.1.43" "5432" "postgres" "your_password" (world_with_ports [])
        = (Ok "/root/supabase_projects/alpha", w')
        ∧ fs w' !! "/root/supabase_projects/alpha" = Some Dir.
Proof. eexists. split; vm_compute; reflexivity. Qed.

Lemma create_project_persists_ports_witness :
  ∃ w' config,
    create_project Ideal.small_host "alpha" "small" "2CPU/4GB RAM"
      "192.168.1.43" "5432" "postgres" "your_password" (world_with_ports [])
    = (Ok "/root/supabase_projects/alpha", w')
    ∧ fs w' !! path_join "/root/supabase_projects/alpha" "supabase_config.json"
      = Some (File (json_dumps Ideal.small_host config))
    ∧ (ports config).*1
      = ["studio"; "kong"; "auth"; "rest"; "realtime"; "storage"; "meta";
         "functions"; "analytics"; "vector"]
    ∧ length (ports config) = 10%nat
    ∧ NoDup (ports config).*1.
Proof.
  destruct alpha_created as (w' & Hrun & _). exists w'.
  destruct (create_project_persists_ports Ideal.small_host "alpha" "small"
              "2CPU/4GB RAM" "192.168.1.43" "5432" "postgres" "your_password"
              (world_with_ports []) "/root/supabase_projects/alpha" w' Hrun)
    as (_ & config & Hfile & Hkeys & Hlen & Hnd).
  exists config. repeat split; assumption.
Defined.

Lemma create_project_duplicate_witness :
  ∃ w1 w2,
    create_project Ideal.small_host "alpha" "small" "2CPU/4GB RAM"
      "192.168.1.43" "5432" "postgres" "your_password" (world_with_ports [])
    = (Ok "/root/supabase_projects/alpha", w1)
    ∧ create_project Ideal.small_host "alpha" "small" "2CPU/4GB RAM"
        "192.168.1.43" "5432" "postgres" "your_password" w1
      = (Raise (Exn ValueError
                  ("Project '" +:+ "alpha"
                   +:+ "' already exists. Please choose a different name.")), w2)
    ∧ w2 = refused_duplicate Ideal.small_host "alpha" w1
    ∧ fs w2 = fs w1
    ∧ ports_in_use w2 = ports_in_use w1
    ∧ procs w2 = procs w1
    ∧ draws w2 = draws w1.
Proof.
  destruct alpha_created as (w1 & Hrun & Hdir). exists w1.
  destruct (create_project_duplicate Ideal.small_host "alpha" "small" "2CPU/4GB RAM"
              "192.168.1.43" "5432" "postgres" "your_password" w1)
    as (w2 & Hagain).
  - assert (path_join (projects_dir Ideal.small_host) "alpha"
            = "/root/supabase_projects/alpha") as -> by (vm_compute; reflexivity).
    rewrite Hdir. eauto.
  - exists w2. split; [exact Hrun | exact Hagain].
Defined.

(** C4, counterexample.  The create of project "alpha" with size "small"
    succeeds, and the configuration read back from the persisted text has 10
    entries in [ports], not 9. *)
Lemma create_project_persists_ten_ports :
  ∃ w' text config,
    create_project Ideal.small_host "alpha" "small" "2CPU/4GB RAM"
      "192.168.1.43" "5432" "postgres" "your_password" (world_with_ports [])
    = (Ok "/root/supabase_projects/alpha", w')
    ∧ fs w' !! "/root/supabase_projects/alpha/supabase_config.json" = Some (File text)
    ∧ json_loads Ideal.small_host text = Ok config
    ∧ ports config
      = [("studio", 3000); ("kong", 8000); ("auth", 9999); ("rest", 3001);
         ("realtime", 4000); ("storage", 5000); ("meta", 8080);
         ("functions", 54321); ("analytics", 4001); ("vector", 9001)]
    ∧ length (ports config) ≠ 9%nat.
Proof.
  eexists _, _, _.
  split; [vm_compute; reflexivity|].
  split; [vm_compute; reflexivity|].
  split; [vm_compute; reflexivity|].
  split; [vm_compute; reflexivity|].
  vm_compute. discriminate.
Qed.

(** * Port exhaustion *)

Lemma port_free_ext w1 w2 p :
  ports_in_use w1 = ports_in_use w2 → port_free w1 p → port_free w2 p.
Proof. unfold port_free. by intros ->. Qed.

Lemma try_except_Raise {A} (m : M A) (h : exn → M A) w e w1 :
  m w = (Raise e, w1) → try_except m h w = h e w1.
Proof. intros H. unfold try_except. by rewrite H. Qed.

Lemma create_project_port_exhaustion env project_name machine_size specs
    db_host db_port db_user db_password w (pre post : dict) service base_port :
  fs w !! path_join (projects_dir env) project_name = None →
  machine_size ∈ ["small"; "medium"; "large"; "xlarge"] →
  base_ports = pre ++ (service, base_port) :: post →
  (∀ s b, (s, b) ∈ pre → ∃ p, b ≤ p ≤ b + 100 ∧ port_free w p) →
  (∀ q, base_port ≤ q ≤ base_port + 100 → q ∈ ports_in_use w) →
  ∃ w',
    create_project env project_name machine_size specs db_host db_port db_user db_password w
    = (Raise (Exn ValueError
                ("Port allocation failed: Could not find available port for "
                 +:+ service +:+ " service")), w')
    ∧ fs w' = <[path_join (projects_dir env) project_name := Dir]> (fs w)
    ∧ ports_in_use w' = ports_in_use w
    ∧ procs w' = procs w.
Proof.
  intros Hpath Hsize Hbase Hfree Hbusy.
  assert (∀ s b, (s, b) ∈ base_ports → 0 ≤ b ∧ b + 100 ≤ 65535) as Hvalid.
  { intros s b Hin. unfold base_ports in Hin.
    repeat (apply elem_of_cons in Hin as [[= -> ->]|Hin]; [lia|]).
    by apply elem_of_nil in Hin. }
  assert (NoDup pre.*1) as Hnd.
  { assert (NoDup base_ports.*1) as Hall by (by apply (bool_decide_unpack _); vm_compute).
    rewrite Hbase, fmap_app in Hall. by apply NoDup_app in Hall as [? _]. }
  unfold create_project. do 4 run_step.
  cbn [fs logged set_console set_logs set_ticks]. rewrite Hpath.
  rewrite bool_decide_false by (by intros [? ?]).
  run_step. rewrite bool_decide_true by done. cbn [negb].
  do 3 run_step.
  erewrite bind_Ok; last by (apply os_makedirs_fresh; cbn; exact Hpath).
  do 2 run_step.
  match goal with
  | |- context [bind (generate_jwt_keys env ?r) _ ?w0] =>
      destruct (generate_jwt_keys_run env r w0)
        as (w2 & Hkeys & Hfs & Hports & Hprocs & Hlogs & Hconsole)
  end.
  cbv zeta in Hkeys. rewrite (bind_Ok _ _ _ _ _ Hkeys). cbv beta iota zeta.
  do 6 run_step.
  erewrite bind_Raise; last first.
  { erewrite try_except_Raise; last first.
    { apply bind_Raise. rewrite Hbase. apply find_available_ports_raises; [done| | | |].
      - intros s b Hin. split.
        + apply (Hvalid s b). rewrite Hbase. apply elem_of_app. by left.
        + destruct (Hfree s b Hin) as (p & Hp & Hpf). exists p. split; [done|].
          revert Hpf. apply port_free_ext. cbn. by rewrite Hports.
      - apply (Hvalid service base_port). rewrite Hbase. apply elem_of_app. right. by left.
      - apply (Hvalid service base_port). rewrite Hbase. apply elem_of_app. right. by left.
      - intros q Hq. cbn. rewrite Hports. cbn. by apply Hbusy. }
    run_step. reflexivity. }
  eexists. split; [reflexivity|].
  cbn. rewrite Hfs, Hports, Hprocs. by cbn.
Qed.

(** C3 (as amended).  If every port of the 101-port window of a service,
    from its base to its base plus 100, is occupied, and each service before
    it in the map has a free port in its own window, then port allocation
    raises the exhaustion error that names this service; no map is returned
    and no socket stays bound, the world being as before.  In
    [create_project] the error is raised again as a [ValueError] with the
    same service name before any configuration is written: the call leaves
    behind the new project directory and nothing else on the file system, no
    bound port and no subprocess. *)
Theorem port_exhaustion (w : World) (pre post : dict) (service : string)
    (base_port : Z) :
  NoDup pre.*1 →
  (∀ s b, (s, b) ∈ pre → 0 ≤ b ∧ ∃ p, b ≤ p ≤ b + 100 ∧ port_free w p) →
  0 ≤ base_port → base_port + 100 ≤ 65535 →
  (∀ q, base_port ≤ q ≤ base_port + 100 → q ∈ ports_in_use w) →
  find_available_ports (pre ++ (service, base_port) :: post) w
  = (Raise (Exn Exception
              ("Could not find available port for " +:+ service +:+ " service")), w)
  ∧ ∀ env project_name machine_size specs db_host db_port db_user db_password,
      base_ports = pre ++ (service, base_port) :: post →
      fs w !! path_join (projects_dir env) project_name = None →
      machine_size ∈ ["small"; "medium"; "large"; "xlarge"] →
      ∃ w',
        create_project env project_name machine_size specs
          db_host db_port db_user db_password w
        = (Raise (Exn ValueError
                    ("Port allocation failed: Could not find available port for "
                     +:+ service +:+ " service")), w')
        ∧ fs w' = <[path_join (projects_dir env) project_name := Dir]> (fs w)
        ∧ ports_in_use w' = ports_in_use w
        ∧ procs w' = procs w.
Proof.
  intros Hnd Hfree H0 Hmax Hbusy. split.
  - by apply find_available_ports_raises.
  - intros env project_name machine_size specs db_host db_port db_user db_password
      Hbase Hpath Hsize.
    apply (create_project_port_exhaustion env project_name machine_size specs
             db_host db_port db_user db_password w pre post service base_port);
      try done.
    intros s b Hin. by destruct (Hfree s b Hin) as [_ ?].
Qed.

(** The ports 3001 to 3101 are taken: "studio", "kong" and "auth" find a
    port, and the window of "rest" (base 3001) is exhausted. *)
Lemma port_exhaustion_witness :
  find_available_ports
    ([("studio", 3000); ("kong", 8000); ("auth", 9999)]
     ++ ("rest", 3001)
        :: [("realtime", 4000); ("storage", 5000); ("meta", 8080);
            ("functions", 54321); ("analytics", 4001); ("vector", 9001)])
    (world_with_ports (seqZ 3001 101))
  = (Raise (Exn Exception ("Could not find available port for " +:+ "rest" +:+ " service")),
     world_with_ports (seqZ 3001 101))
  ∧ ∀ env project_name machine_size specs db_host db_port db_user db_password,
      base_ports
      = [("studio", 3000); ("kong", 8000); ("auth", 9999)]
        ++ ("rest", 3001)
           :: [("realtime", 4000); ("storage", 5000); ("meta", 8080);
               ("functions", 54321); ("analytics", 4001); ("vector", 9001)] →
      fs (world_with_ports (seqZ 3001 101)) !! path_join (projects_dir env) project_name
      = None →
      machine_size ∈ ["small"; "medium"; "large"; "xlarge"] →
      ∃ w',
        create_project env project_name machine_size specs
          db_host db_port db_user db_password (world_with_ports (seqZ 3001 101))
        = (Raise (Exn ValueError
                    ("Port allocation failed: Could not find available port for "
                     +:+ "rest" +:+ " service")), w')
        ∧ fs w'
          = <[path_join (projects_dir env) project_name := Dir]>
              (fs (world_with_ports (seqZ 3001 101)))
        ∧ ports_in_use w' = ports_in_use (world_with_ports (seqZ 3001 101))
        ∧ procs w' = procs (world_with_ports (seqZ 3001 101)).
Proof.
  apply (port_exhaustion (world_with_ports (seqZ 3001 101))
           [("studio", 3000); ("kong", 8000); ("auth", 9999)]
           [("realtime", 4000); ("storage", 5000); ("meta", 8080);
            ("functions", 54321); ("analytics", 4001); ("vector", 9001)]
           "rest" 3001).
  - apply (bool_decide_unpack _). vm_compute. reflexivity.
  - apply windows_free_spec. vm_compute. reflexivity.
  - lia.
  - lia.
  - intros q Hq. unfold world_with_ports. cbn [ports_in_use].
    apply elem_of_list_to_set, elem_of_seqZ. lia.
Defined.

(** * Deleting a project *)

Lemma never_raises_run_commands env cwd commands last :
  never_raises (run_commands env cwd commands last).
Proof.
  revert last. induction commands as [|cmd commands IH]; intros last w.
  - by eexists _, _.
  - rewrite run_commands_step. cbv zeta.
    destruct (run_process env (length (procs w)) cmd cwd) as [rc out err|e].
    + case_bool_decide; [by eexists _, _ | apply IH].
    + apply IH.
Qed.

Lemma never_raises__run_compose env cwd args : never_raises (_run_compose env cwd args).
Proof.
  intros w. unfold _run_compose, shutil_which, bind, ret.
  destruct (which env "docker"), (which env "docker-compose"); cbn [app];
    first [apply never_raises_run_commands | by eexists _, _].
Qed.

Lemma prefix_app s t : String.prefix s (s +:+ t) = true.
Proof.
  induction s as [|c s IH]; simpl; [by destruct t|].
  by destruct (ascii_dec c c).
Qed.

Lemma app_assoc_string (a b c : string) : (a +:+ b) +:+ c = a +:+ b +:+ c.
Proof.
  induction a as [|x a IH]; [done|].
  change (String x ((a +:+ b) +:+ c) = String x (a +:+ b +:+ c)). by rewrite IH.
Qed.

(** A file of a directory lies inside it. *)
Lemma inside_path_join d file :
  d ≠ "" → String.prefix "/" file = false → inside d (path_join d file) = true.
Proof.
  intros Hd Hfile. unfold inside. apply orb_true_iff. right.
  rewrite path_join_relative by done. unfold sep_of.
  destruct (PyStr.endswith d "/").
  - rewrite orb_true_r. apply prefix_app.
  - rewrite orb_false_r, bool_decide_false by done.
    rewrite <- app_assoc_string. apply prefix_app.
Qed.

Lemma inside_self d : inside d d = true.
Proof. unfold inside. by rewrite bool_decide_true. Qed.

Lemma shutil_rmtree_Dir d w :
  fs w !! d = Some Dir →
  shutil_rmtree d w = (Ok tt, set_fs (filter (λ kv, inside d kv.1 = false) (fs w)) w).
Proof. intros H. unfold shutil_rmtree. by rewrite H. Qed.

(** [delete_project] on a project whose directory exists removes the
    directory with everything inside it. *)
Lemma delete_project_removes env project_name w p :
  fs w !! path_join (projects_dir env) project_name = Some Dir →
  inside (path_join (projects_dir env) project_name) p = true →
  fs (delete_project env project_name w).2 !! p = None.
Proof.
  intros Hdir Hin. unfold delete_project, try_except. run_step.
  rewrite Hdir. rewrite bool_decide_true by eauto. cbn [negb].
  destruct (never_raises_stop_project env project_name w) as (t & w1 & Hstop).
  rewrite (bind_Ok _ _ _ _ _ Hstop).
  destruct (never_raises__run_compose env (path_join (projects_dir env) project_name)
              ["down"; "-v"; "--remove-orphans"] w1) as ([[rc out1] err1] & w2 & Hdown).
  rewrite (bind_Ok _ _ _ _ _ Hdown).
  assert (∀ q, fs w2 !! q = fs w !! q) as Hfs.
  { intros q.
    rewrite (writes_within__run_compose (λ _, False) env _ _ _ _ _ Hdown q) by (by intros []).
    apply (writes_within_stop_project (λ _, False) env _ _ _ _ Hstop q). by intros []. }
  erewrite bind_Ok; last first.
  { unfold try_except. erewrite bind_Ok; [reflexivity|].
    apply shutil_rmtree_Dir. by rewrite Hfs. }
  cbn. apply map_lookup_filter_None. right. intros x _. cbn. by rewrite Hin.
Qed.

(** * The persisted configuration under start, stop, status and delete *)

(** C9.  For every project name and every state of the world, the file
    [supabase_config.json] of the project is the same after [start_project],
    [stop_project], the status endpoint [project_status_api] and the status
    command [status_project] as before, whatever the operation returns: also
    when [start_project] rewrites the generated topology file.
    [delete_project] on a project whose directory exists removes the file
    together with the directory. *)
Theorem config_untouched (env : Env) (project_name : string) (w : World) :
  let project_path := path_join (projects_dir env) project_name in
  let config_path := path_join project_path "supabase_config.json" in
  fs (start_project env project_name w).2 !! config_path = fs w !! config_path
  ∧ fs (stop_project env project_name w).2 !! config_path = fs w !! config_path
  ∧ fs (project_status_api env project_name w).2 !! config_path = fs w !! config_path
  ∧ fs (status_project env project_name w).2 !! config_path = fs w !! config_path
  ∧ (fs w !! project_path = Some Dir → project_path ≠ "" →
     fs (delete_project env project_name w).2 !! config_path = None
     ∧ fs (delete_project env project_name w).2 !! project_path = None).
Proof.
  intros project_path config_path. repeat split.
  - destruct (start_project env project_name w) as [r w'] eqn:Hrun.
    apply (writes_within_start_project env project_name w r w' Hrun).
    apply config_path_not_compose.
  - destruct (stop_project env project_name w) as [r w'] eqn:Hrun.
    apply (writes_within_stop_project (λ _, False) env project_name w r w' Hrun).
    by intros [].
  - destruct (project_status_api env project_name w) as [r w'] eqn:Hrun.
    apply (writes_within_project_status_api (λ _, False) env project_name w r w' Hrun).
    by intros [].
  - destruct (status_project env project_name w) as [r w'] eqn:Hrun.
    apply (writes_within_status_project (λ _, False) env project_name w r w' Hrun).
    by intros [].
  - apply delete_project_removes; [done|]. by apply inside_path_join.
  - apply delete_project_removes; [done|]. apply inside_self.
Qed.

(** [start_project] on it rewrites the topology file to the current tag,
    reports success, and leaves the configuration file as it was. *)
Example start_project_migrates :
  ∃ w', start_project (Ideal.host Byte.x00) "alpha" old_project = (Ok (true, "", ""), w')
        ∧ fs w' !! "/root/supabase_projects/alpha/docker-compose.yml"
          = Some (File "    image: supabase/gotrue:v2")
        ∧ fs w' !! "/root/supabase_projects/alpha/supabase_config.json"
          = Some (File "{}").
Proof. eexists. vm_compute. done. Qed.

